(** * A3-to-A4 PDF splitter: the splitting service and the preview arithmetic

    A shallow embedding of [services/pdfService.ts] (the function
    [splitA3ToA4]), of [types.ts] and of the preview computations of
    [App.tsx], followed by the properties of the specification.

    Numbers.  A JavaScript [number] is a double.  One that holds a
    number the user types (the starting page number, the start index)
    or a page number derived from it is modelled by the integer it
    holds ([Z]), and sums, differences and products of such numbers are
    rounded to the nearest double as the program rounds them
    ([JsNumber]): they are exact up to 2^53 and not beyond.  The loop
    index [i] and the current page of the preview are positions in a
    document, bounded by its page count, and are plain [nat] and [Z].
    A [number] that holds a length, a ratio or a percentage is modelled
    as an exact rational ([Q]): for these continuous quantities the
    development is about the arithmetic the code writes down, not about
    its rounding.  Where a percentage is printed as an integer, the
    integer depends on that rounding, and the percentage is rounded to
    the nearest double first ([JsNumber.fl]).  Equalities between
    derived lengths are stated with [==] ([Qeq]).

    pdf-lib.  The PDF library is an external collaborator.  Its parser
    and its font embedder are taken as an interface ([PDFLib]); a page
    is the record of what the service can set on it or read from it. *)

From Stdlib Require Import List ZArith QArith Qminmax Qround Lia Lqa Bool.
From Stdlib Require Import String DecimalString DecimalZ FinFun.
Import ListNotations.

Set Implicit Arguments.

(* ------------------------------------------------------------------ *)
(** ** types.ts *)

Module Types.

Inductive Orientation := Auto | Vertical | Horizontal.

Inductive NumberingSide := Both | First | Second.

Record SplitOptions := {
  orientation : Orientation;
  splitRatio : Q;
  evenSplitRatio : option Q;          (* evenSplitRatio?: number *)
  useDualRatios : bool;
  mergeToSingleFile : bool;
  enablePageNumbering : bool;
  startingPageNumber : Z;
  numberingStartFromPageIndex : Z;
  numberingSide : NumberingSide
}.

Definition Orientation_eqb (a b : Orientation) : bool :=
  match a, b with
  | Auto, Auto | Vertical, Vertical | Horizontal, Horizontal => true
  | _, _ => false
  end.

Definition NumberingSide_eqb (a b : NumberingSide) : bool :=
  match a, b with
  | Both, Both | First, First | Second, Second => true
  | _, _ => false
  end.

End Types.
Import Types.

(** [a > b] on numbers. *)
Definition Qgtb (a b : Q) : bool := negb (Qle_bool a b).

(* ------------------------------------------------------------------ *)
(** ** JavaScript numbers *)

Module JsNumber.

(** [Number.MAX_SAFE_INTEGER]. *)
Definition MAX_SAFE_INTEGER : Z := 2 ^ 53 - 1.

(** The double nearest to the integer [z], ties going to the even
    mantissa; it is [z] itself up to 2^53 in magnitude.  (Overflow to
    [Infinity], from 2^1024 on, is not modelled.) *)
Definition toDouble (z : Z) : Z :=
  if (Z.abs z <=? 2 ^ 53)%Z then z
  else
    let a := Z.abs z in
    let e := (Z.log2 a - 52)%Z in
    let q := (a / 2 ^ e)%Z in
    let r := (a mod 2 ^ e)%Z in
    let half := (2 ^ (e - 1))%Z in
    let q' :=
      if (r <? half)%Z then q
      else if (half <? r)%Z then (q + 1)%Z
      else if Z.even q then q else (q + 1)%Z in
    (Z.sgn z * (q' * 2 ^ e))%Z.

(** [a + b], [a - b] and [a * b] on numbers that hold integers. *)
Definition add (a b : Z) : Z := toDouble (a + b).

Definition sub (a b : Z) : Z := toDouble (a - b).

Definition mul (a b : Z) : Z := toDouble (a * b).

(** The quotient [num / den] ([den] positive) rounded to the nearest
    integer, ties going to the even one. *)
Definition roundHalfEven (num den : Z) : Z :=
  let q := (num / den)%Z in
  let r := (num mod den)%Z in
  if (2 * r <? den)%Z then q
  else if (den <? 2 * r)%Z then (q + 1)%Z
  else if Z.even q then q else (q + 1)%Z.

(** The exponent [e] of the double nearest to [a / b] ([a] and [b]
    positive): the one that puts the mantissa [(a / b) / 2^e] between
    2^52 and 2^53. *)
Definition exponent (a b : Z) : Z :=
  let e0 := (Z.log2 a - Z.log2 b - 52)%Z in
  if (2 ^ 52 * (b * 2 ^ Z.max 0 e0) <=? a * 2 ^ Z.max 0 (- e0))%Z
  then e0 else (e0 - 1)%Z.

(** The double nearest to the rational [q], ties going to the even
    mantissa: the result of a division or a multiplication whose exact
    value is [q].  (Subnormal numbers and overflow, out of reach of a
    percentage, are not modelled.) *)
Definition fl (q : Q) : Q :=
  match Qnum q with
  | 0%Z => 0
  | n =>
      let a := Z.abs n in
      let b := Zpos (Qden q) in
      let e := exponent a b in
      let m := roundHalfEven (a * 2 ^ Z.max 0 (- e)) (b * 2 ^ Z.max 0 e) in
      inject_Z (Z.sgn n * m * 2 ^ Z.max 0 e) / inject_Z (2 ^ Z.max 0 (- e))
  end.

End JsNumber.

(* ------------------------------------------------------------------ *)
(** ** The part of pdf-lib the service uses *)

Module PdfLib.

(** [page.getSize()]: the width and height of a page. *)
Record Size := { width : Q; height : Q }.

(** A rectangle in the [x, y, width, height] form of [setCropBox],
    origin at the bottom-left corner of the page. *)
Record Rectangle := { rx : Q; ry : Q; rwidth : Q; rheight : Q }.

(** The options object of [drawText]. *)
Record DrawTextOptions := {
  x : Q; y : Q; size : Q; color : Q * Q * Q
}.

(** A page of the output document: the source page it was copied
    from (none for a page made by [addPage]), its media box (inherited
    from that page, lower-left corner at the origin), the crop box once
    set, and the text drawn on it, oldest first. *)
Record PDFPage := {
  copiedFrom : option nat;
  mediaBox : Size;
  cropBox : option Rectangle;
  drawn : list (string * DrawTextOptions)
}.

(** [outPdf.copyPages(sourcePdf, [i])]: a fresh copy of source page
    [i], whose size is [sz]. *)
Definition copyPages (i : nat) (sz : Size) : PDFPage :=
  {| copiedFrom := Some i; mediaBox := sz; cropBox := None; drawn := [] |}.

(** [PageSizes.A4], the size [addPage()] gives a page by default. *)
Definition A4 : Size := {| width := 595.28; height := 841.89 |}.

(** [doc.addPage()] without argument: a blank page of the default
    size. *)
Definition addPage : PDFPage :=
  {| copiedFrom := None; mediaBox := A4; cropBox := None; drawn := [] |}.

(** [doc.save()], as far as the pages go: a document without pages is
    given a blank page before it is serialised. *)
Definition save (pages : list PDFPage) : list PDFPage :=
  match pages with
  | [] => [addPage]
  | _ => pages
  end.

(** [page.setCropBox(x, y, width, height)]. *)
Definition setCropBox (p : PDFPage) (x0 y0 w h : Q) : PDFPage :=
  {| copiedFrom := copiedFrom p; mediaBox := mediaBox p;
     cropBox := Some {| rx := x0; ry := y0; rwidth := w; rheight := h |};
     drawn := drawn p |}.

(** [page.getSize()]: pdf-lib answers with the size of the media box;
    the crop box plays no part in it. *)
Definition getSize (p : PDFPage) : Size := mediaBox p.

(** [page.getCropBox()]: the crop box, the media box when none is set. *)
Definition getCropBox (p : PDFPage) : Rectangle :=
  match cropBox p with
  | Some r => r
  | None => {| rx := 0; ry := 0;
               rwidth := width (mediaBox p); rheight := height (mediaBox p) |}
  end.

(** [page.drawText(text, options)]: coordinates are those of the page,
    not of its crop box. *)
Definition drawText (p : PDFPage) (text : string) (o : DrawTextOptions)
  : PDFPage :=
  {| copiedFrom := copiedFrom p; mediaBox := mediaBox p;
     cropBox := cropBox p; drawn := drawn p ++ [(text, o)] |}.

(** [rgb(r, g, b)]. *)
Definition rgb (r g b : Q) : Q * Q * Q := (r, g, b).

Inductive StandardFonts := Helvetica.

(** An embedded font, as far as the service looks at it. *)
Record PDFFont := {
  fontName : StandardFonts;
  widthOfTextAtSize : string -> Q -> Q
}.

End PdfLib.
Import PdfLib.

(* ------------------------------------------------------------------ *)
(** ** Promises that may reject, and the progress callback

    An [async] computation either resolves with a value or rejects with
    an error; on the way it may call [onProgress].  The calls are kept
    as the list of the values passed, oldest first. *)

Inductive Error := ParseError | FontError.

Inductive Outcome (A : Type) : Type :=
| Resolved (a : A)
| Rejected (e : Error).
Arguments Rejected {A} e.

Definition Async (A : Type) : Type := list Q -> Outcome A * list Q.

Definition ret {A} (a : A) : Async A := fun calls => (Resolved a, calls).

Definition bind {A B} (m : Async A) (k : A -> Async B) : Async B :=
  fun calls =>
    match m calls with
    | (Resolved a, calls') => k a calls'
    | (Rejected e, calls') => (Rejected e, calls')
    end.

(** [await p] for a promise of the library that has already settled. *)
Definition await {A} (p : Outcome A) : Async A := fun calls => (p, calls).

(** [onProgress(v)]. *)
Definition onProgress (v : Q) : Async unit :=
  fun calls => (Resolved tt, calls ++ [v]).

Declare Scope async_scope.
Delimit Scope async_scope with async.
Notation "x <- m ;; k" := (bind m (fun x => k))
  (at level 61, m at next level, right associativity) : async_scope.
Notation "m ;;; k" := (bind m (fun _ => k))
  (at level 61, right associativity) : async_scope.

(** Running a call of the service from the start: no call of the
    callback has happened yet. *)
Definition run {A} (m : Async A) : Outcome A * list Q := m [].

(** The two asynchronous entry points of pdf-lib that can fail. *)
Class PDFLib := {
  (** [PDFDocument.load(arrayBuffer)] followed by [getPages()]: the
      sizes of the pages of the parsed document, in order. *)
  load : list Byte.byte -> Outcome (list Size);
  (** [outPdf.embedFont(font)]. *)
  embedFont : StandardFonts -> Outcome PDFFont
}.

(* ------------------------------------------------------------------ *)
(** ** services/pdfService.ts *)

Module PdfService.
Section Service.

Context {lib : PDFLib}.
Open Scope Q_scope.

Definition fontSize : Q := 10.

(** The template literal [`${pageNumberCounter}`]: the decimal digits
    of the integer, which is what the program prints of an integer of
    magnitude up to 2^54 (beyond, it prints the shortest digits that
    identify the double). *)
Definition template (n : Z) : string := NilZero.string_of_int (Z.to_int n).

(** [const isEvenPage = i % 2 === 1]. *)
Definition isEvenPage (i : nat) : bool := Nat.eqb (i mod 2) 1.

(** [const currentRatio = (options.useDualRatios && isEvenPage &&
    options.evenSplitRatio !== undefined) ? options.evenSplitRatio :
    options.splitRatio]. *)
Definition currentRatio (options : SplitOptions) (i : nat) : Q :=
  match useDualRatios options && isEvenPage i, evenSplitRatio options with
  | true, Some even => even
  | _, _ => splitRatio options
  end.

(** [useVerticalSplit]: for ['auto'], [width > height]; otherwise
    [options.orientation === 'vertical']. *)
Definition useVerticalSplit (options : SplitOptions) (sz : Size) : bool :=
  match orientation options with
  | Auto => Qgtb (width sz) (height sz)
  | o => Orientation_eqb o Vertical
  end.

(** The two [setCropBox] calls. *)
Definition setCropBoxes (vertical : bool) (ratio : Q) (sz : Size)
    (page1 page2 : PDFPage) : PDFPage * PDFPage :=
  if vertical then
    let splitPos := width sz * ratio in
    (setCropBox page1 0 0 splitPos (height sz),
     setCropBox page2 splitPos 0 (width sz - splitPos) (height sz))
  else
    let splitPos := height sz * (1 - ratio) in
    (setCropBox page1 0 splitPos (width sz) (height sz - splitPos),
     setCropBox page2 0 0 (width sz) splitPos).

(** One numbering block: draw [`${pageNumberCounter++}`] on [page] and
    hand back the advanced counter. *)
Definition drawPageNumber (font : PDFFont) (page : PDFPage)
    (pageNumberCounter : Z) : PDFPage * Z :=
  let pSize := getSize page in
  let text := template pageNumberCounter in
  let textWidth := widthOfTextAtSize font text fontSize in
  (drawText page text
     {| x := width pSize / 2 - textWidth / 2;
        y := 15;
        size := fontSize;
        color := rgb 0.2 0.2 0.2 |},
   JsNumber.add pageNumberCounter 1).

(** [shouldAddNumberToThisA3Page]. *)
Definition shouldAddNumberToThisA3Page (options : SplitOptions) (i : nat)
  : bool :=
  enablePageNumbering options
  && (numberingStartFromPageIndex options <=? Z.of_nat i)%Z.

Definition numbersFirst (options : SplitOptions) : bool :=
  NumberingSide_eqb (numberingSide options) Both
  || NumberingSide_eqb (numberingSide options) First.

Definition numbersSecond (options : SplitOptions) : bool :=
  NumberingSide_eqb (numberingSide options) Both
  || NumberingSide_eqb (numberingSide options) Second.

(** The body of the loop up to the two [addPage] calls, for source
    page [i] of size [sz]: the two output pages and the counter after
    them. *)
Definition splitPage (options : SplitOptions) (font : PDFFont)
    (i : nat) (sz : Size) (pageNumberCounter : Z) : PDFPage * PDFPage * Z :=
  let ratio := currentRatio options i in
  let vertical := useVerticalSplit options sz in
  let page1 := copyPages i sz in
  let page2 := copyPages i sz in
  let '(page1, page2) := setCropBoxes vertical ratio sz page1 page2 in
  if shouldAddNumberToThisA3Page options i then
    let '(page1, c1) :=
      if numbersFirst options
      then drawPageNumber font page1 pageNumberCounter
      else (page1, pageNumberCounter) in
    let '(page2, c2) :=
      if numbersSecond options
      then drawPageNumber font page2 c1
      else (page2, c1) in
    (page1, page2, c2)
  else (page1, page2, pageNumberCounter).

(** The variables the loop updates. *)
Record LoopState := {
  i : nat;
  pageNumberCounter : Z;
  outPdf : list PDFPage
}.

(** [((i + 1) / totalPages) * 100]. *)
Definition progressValue (i totalPages : nat) : Q :=
  (inject_Z (Z.of_nat (i + 1)) / inject_Z (Z.of_nat totalPages)) * 100.

(** One turn of the [for] loop. *)
Definition loopBody (options : SplitOptions) (font : PDFFont)
    (totalPages : nat) (sz : Size) (st : LoopState) : Async LoopState :=
  (let '(page1, page2, counter) :=
     splitPage options font (i st) sz (pageNumberCounter st) in
   let out := outPdf st ++ [page1] in
   let out := out ++ [page2] in
   onProgress (progressValue (i st) totalPages) ;;;
   ret {| i := S (i st); pageNumberCounter := counter; outPdf := out |})%async.

(** [for (let i = 0; i < totalPages; i++)]: [rest] holds
    [pages[i], pages[i+1], ...]. *)
Fixpoint forLoop (options : SplitOptions) (font : PDFFont)
    (totalPages : nat) (rest : list Size) (st : LoopState)
  : Async LoopState :=
  match rest with
  | [] => ret st
  | page :: rest' =>
      (st' <- loopBody options font totalPages page st ;;
       forLoop options font totalPages rest' st')%async
  end.

(** [splitA3ToA4(file, options, onProgress)].  [file] stands for the
    bytes of [file.arrayBuffer()]; the result is the page list of the
    document [outPdf.save()] serialises. *)
Definition splitA3ToA4 (file : list Byte.byte) (options : SplitOptions)
  : Async (list PDFPage) :=
  (pages <- await (load file) ;;
   font <- await (embedFont Helvetica) ;;
   let totalPages := List.length pages in
   st <- forLoop options font totalPages pages
           {| i := 0; pageNumberCounter := startingPageNumber options;
              outPdf := [] |} ;;
   ret (save (outPdf st)))%async.

End Service.
End PdfService.
Import PdfService.

(* ------------------------------------------------------------------ *)
(** ** App.tsx: the state of the component and the preview arithmetic *)

Module App.

(** The [useState] cells the preview and [handleProcess] read. *)
Record State := {
  splitMode : Orientation;
  splitRatio : Q;
  evenSplitRatio : Q;
  useDualRatios : bool;
  enablePageNumbering : bool;
  startingPageNumber : Z;
  numberingStartFromPageIndex : Z;
  numberingSide : NumberingSide;
  previewInfo : option Size;
  currentPage : Z;
  totalPages : Z
}.

(** The [options] object [handleProcess] passes to [splitA3ToA4]. *)
Definition options (st : State) : SplitOptions :=
  {| Types.orientation := splitMode st;
     Types.splitRatio := splitRatio st;
     Types.evenSplitRatio := Some (evenSplitRatio st);
     Types.useDualRatios := useDualRatios st;
     Types.mergeToSingleFile := true;
     Types.enablePageNumbering := enablePageNumbering st;
     Types.startingPageNumber := startingPageNumber st;
     Types.numberingStartFromPageIndex := numberingStartFromPageIndex st;
     Types.numberingSide := numberingSide st |}.

(** [isVerticalSplit]. *)
Definition isVerticalSplit (st : State) : bool :=
  match splitMode st with
  | Auto =>
      match previewInfo st with
      | Some info => Qgtb (width info) (height info)
      | None => true
      end
  | m => Orientation_eqb m Vertical
  end.

(** [const isCurrentPageEven = currentPage % 2 === 0]; [%] is the
    remainder of the truncated division. *)
Definition isCurrentPageEven (st : State) : bool :=
  (Z.rem (currentPage st) 2 =? 0)%Z.

(** [currentActiveRatio]. *)
Definition currentActiveRatio (st : State) : Q :=
  if useDualRatios st && isCurrentPageEven st
  then evenSplitRatio st else splitRatio st.

(** [getSimulatedPageNumbers]: [None] stands for [null]. *)
Definition getSimulatedPageNumbers (st : State) : option Z * option Z :=
  if negb (enablePageNumbering st)
     || (currentPage st - 1 <? numberingStartFromPageIndex st)%Z
  then (None, None)
  else
    let count := startingPageNumber st in
    let partsPerA3 :=
      if NumberingSide_eqb (numberingSide st) Both then 2%Z else 1%Z in
    let skippedA3Pages := numberingStartFromPageIndex st in
    let currentA3PageIndex := (currentPage st - 1)%Z in
    let previousNumberedA3Pages :=
      Z.max 0 (JsNumber.sub currentA3PageIndex skippedA3Pages) in
    let count :=
      JsNumber.add count (JsNumber.mul previousNumberedA3Pages partsPerA3) in
    let p1 :=
      if NumberingSide_eqb (numberingSide st) Both
         || NumberingSide_eqb (numberingSide st) First
      then Some count else None in
    let p2 :=
      if NumberingSide_eqb (numberingSide st) Both
      then Some (JsNumber.add count 1)
      else if NumberingSide_eqb (numberingSide st) Second then Some count
      else None in
    (p1, p2).

(** The [left] offsets, in percent of the preview width, of the two
    page-number labels of a vertical split:
    [currentActiveRatio * 50] and
    [currentActiveRatio * 100 + (1 - currentActiveRatio) * 50]. *)
Definition label1Percent (st : State) : Q := currentActiveRatio st * 50.
Definition label2Percent (st : State) : Q :=
  currentActiveRatio st * 100 + (1 - currentActiveRatio st) * 50.

(** [parseInt(e.target.value) || 1]: [None] is [NaN]. *)
Definition parseIntOr1 (value : option Z) : Z :=
  match value with
  | Some 0%Z | None => 1%Z
  | Some n => n
  end.

(** What the user and the preview effect can do to the state.  The two
    input events carry what [parseInt] makes of the text of the input,
    [None] for [NaN].  [PreviewLoaded numPages viewport] is a run of
    the preview effect on a document of [numPages] pages:
    [setTotalPages(pdf.numPages)], then, when there is a page to load,
    [setPreviewInfo] with its viewport ([getPage] rejects otherwise). *)
Inductive Event :=
| SetSplitMode (m : Orientation)
| SetSplitRatio (r : Q)
| SetEvenSplitRatio (r : Q)
| ToggleDualRatios
| ToggleNumbering
| SetNumberingSide (s : NumberingSide)
| InputStartingPageNumber (value : option Z)
| InputNumberingStartPage (value : option Z)
| GoToPrevPage
| GoToNextPage
| FileChange
| PreviewLoaded (numPages : Z) (viewport : Size)
| ClearFile.

Definition initial : State :=
  {| splitMode := Auto; splitRatio := 0.5; evenSplitRatio := 0.5;
     useDualRatios := false; enablePageNumbering := false;
     startingPageNumber := 1; numberingStartFromPageIndex := 0;
     numberingSide := Both; previewInfo := None;
     currentPage := 1; totalPages := 1 |}.

Definition step (st : State) (e : Event) : State :=
  let upd m r er d en sp ix sd pi cp tp :=
    {| splitMode := m; splitRatio := r; evenSplitRatio := er;
       useDualRatios := d; enablePageNumbering := en;
       startingPageNumber := sp; numberingStartFromPageIndex := ix;
       numberingSide := sd; previewInfo := pi; currentPage := cp;
       totalPages := tp |} in
  let '{| splitMode := m; splitRatio := r; evenSplitRatio := er;
          useDualRatios := d; enablePageNumbering := en;
          startingPageNumber := sp; numberingStartFromPageIndex := ix;
          numberingSide := sd; previewInfo := pi; currentPage := cp;
          totalPages := tp |} := st in
  match e with
  | SetSplitMode m' => upd m' r er d en sp ix sd pi cp tp
  | SetSplitRatio r' => upd m r' er d en sp ix sd pi cp tp
  | SetEvenSplitRatio er' => upd m r er' d en sp ix sd pi cp tp
  | ToggleDualRatios => upd m r er (negb d) en sp ix sd pi cp tp
  | ToggleNumbering => upd m r er d (negb en) sp ix sd pi cp tp
  | SetNumberingSide sd' => upd m r er d en sp ix sd' pi cp tp
  | InputStartingPageNumber v => upd m r er d en (parseIntOr1 v) ix sd pi cp tp
  | InputNumberingStartPage v =>
      upd m r er d en sp (Z.max 0 (JsNumber.sub (parseIntOr1 v) 1)) sd pi cp tp
  | GoToPrevPage => upd m r er d en sp ix sd pi (Z.max 1 (cp - 1)) tp
  | GoToNextPage => upd m r er d en sp ix sd pi (Z.min tp (cp + 1)) tp
  | FileChange => upd m 0.5 0.5 d en sp ix sd None 1%Z tp
  | PreviewLoaded n viewport =>
      upd m r er d en sp ix sd
        (if (1 <=? n)%Z then Some viewport else pi) cp n
  | ClearFile => upd m r er d en sp ix sd None cp tp
  end.

(** The state after a sequence of events. *)
Definition after (events : list Event) : State := fold_left step events initial.

End App.

(* ------------------------------------------------------------------ *)
(** ** Vocabulary of the properties

    The loop is unfolded once and for all into the list of pages it
    appends and the counter it carries, so that each property below is
    an induction on the remaining source pages; the other definitions
    name what the properties speak about. *)

Section Vocabulary.

Variable options : SplitOptions.
Variable font : PDFFont.

(** The counter after the numbering block of source page [i]. *)
Definition nextCounter (i : nat) (c : Z) : Z :=
  snd (splitPage options font i {| width := 0; height := 0 |} c).

(** The counter after [k] turns of the loop that start at page [i] with
    counter [c]. *)
Fixpoint counterFrom (i : nat) (c : Z) (k : nat) : Z :=
  match k with
  | O => c
  | S k' => counterFrom (S i) (nextCounter i c) k'
  end.

(** The pages the loop appends for [rest], the first of which is page
    [i], entered with counter [c]. *)
Fixpoint pagesFrom (i : nat) (c : Z) (rest : list Size) : list PDFPage :=
  match rest with
  | [] => []
  | sz :: rest' =>
      let '(page1, page2, c') := splitPage options font i sz c in
      page1 :: page2 :: pagesFrom (S i) c' rest'
  end.

(** The first, the second copy of source page [i] gets a number. *)
Definition stampsFirst (i : nat) : bool :=
  shouldAddNumberToThisA3Page options i && numbersFirst options.

Definition stampsSecond (i : nat) : bool :=
  shouldAddNumberToThisA3Page options i && numbersSecond options.

(** The number of halves of source page [i] that get a number. *)
Definition stampsOn (i : nat) : Z :=
  if shouldAddNumberToThisA3Page options i
  then Z.b2z (numbersFirst options) + Z.b2z (numbersSecond options)
  else 0.

(** The two crop windows [setCropBoxes] sets. *)
Definition cropRectangles (vertical : bool) (ratio : Q) (sz : Size)
  : Rectangle * Rectangle :=
  let '(page1, page2) :=
    setCropBoxes vertical ratio sz (copyPages 0 sz) (copyPages 0 sz) in
  (getCropBox page1, getCropBox page2).

(** The two copies of source page [i] once their crop boxes are set. *)
Definition croppedCopies (i : nat) (sz : Size) : PDFPage * PDFPage :=
  setCropBoxes (useVerticalSplit options sz) (currentRatio options i) sz
    (copyPages i sz) (copyPages i sz).

End Vocabulary.

(** Equality of rectangles, coordinate by coordinate. *)
Definition Rectangle_eq (a b : Rectangle) : Prop :=
  rx a == rx b /\ ry a == ry b
  /\ rwidth a == rwidth b /\ rheight a == rheight b.

Definition rectangle (x0 y0 w h : Q) : Rectangle :=
  {| rx := x0; ry := y0; rwidth := w; rheight := h |}.

(** The point [(px, py)] lies in the rectangle; the lower and the left
    edge belong to it, the upper and the right edge do not, so that a
    cut line belongs to exactly one side. *)
Definition inside (px py : Q) (r : Rectangle) : Prop :=
  rx r <= px /\ px < rx r + rwidth r
  /\ ry r <= py /\ py < ry r + rheight r.

Definition area (r : Rectangle) : Q := rwidth r * rheight r.

(** The three conditions under which the loop takes [evenSplitRatio]
    for source page [i]. *)
Definition takesEvenRatio (options : SplitOptions) (i : nat) : Prop :=
  useDualRatios options = true
  /\ (i mod 2 = 1)%nat
  /\ exists even : Q, evenSplitRatio options = Some even.

(** Two option objects that agree on every field but
    [mergeToSingleFile]. *)
Definition sameExceptMerge (o1 o2 : SplitOptions) : Prop :=
  orientation o1 = orientation o2
  /\ splitRatio o1 = splitRatio o2
  /\ evenSplitRatio o1 = evenSplitRatio o2
  /\ useDualRatios o1 = useDualRatios o2
  /\ enablePageNumbering o1 = enablePageNumbering o2
  /\ startingPageNumber o1 = startingPageNumber o2
  /\ numberingStartFromPageIndex o1 = numberingStartFromPageIndex o2
  /\ numberingSide o1 = numberingSide o2.

(** [k] pages out of [n], as a percentage. *)
Definition percent (k n : nat) : Q :=
  inject_Z (Z.of_nat k) / inject_Z (Z.of_nat n) * 100.

(** The texts drawn on a page, and on a list of pages in order. *)
Definition textsOn (page : PDFPage) : list string := map fst (drawn page).

Definition stampedTexts (out : list PDFPage) : list string :=
  flat_map textsOn out.

(** [n] consecutive integers from [c] on. *)
Definition consecutive (c : Z) (n : nat) : list Z :=
  map (fun j => (c + Z.of_nat j)%Z) (seq 0 n).

(** What a preview label predicts about the texts of an output page:
    [null] predicts no text, a number predicts that one text. *)
Definition labelTexts (label : option Z) : list string :=
  match label with
  | Some n => [template n]
  | None => []
  end.

(** By how much one numbered source page advances the counter. *)
Definition perPageIncrement (side : NumberingSide) : Z :=
  match side with
  | Both => 2
  | First | Second => 1
  end.

(** The horizontal centre of a drawn text and of a rectangle, in page
    coordinates. *)
Definition textCenter (font : PDFFont) (entry : string * DrawTextOptions)
  : Q :=
  x (snd entry) + widthOfTextAtSize font (fst entry) (size (snd entry)) / 2.

Definition windowCenter (r : Rectangle) : Q := rx r + rwidth r / 2.

(** A library for examples: every file parses to [pages], and the font
    gives each character half the font size. *)
Definition exampleFont : PDFFont :=
  {| fontName := Helvetica;
     widthOfTextAtSize :=
       fun text sz => inject_Z (Z.of_nat (String.length text)) * sz * 0.5 |}.

Definition exampleLib (pages : list Size) : PDFLib :=
  {| load := fun _ => Resolved pages;
     embedFont := fun _ => Resolved exampleFont |}.

(** A library whose parser rejects every file. *)
Definition rejectingLib : PDFLib :=
  {| load := fun _ => Rejected ParseError;
     embedFont := fun _ => Resolved exampleFont |}.

(** A landscape A3 page and a portrait one, in points. *)
Definition a3Landscape : Size := {| width := 1191; height := 842 |}.

Definition a3Portrait : Size := {| width := 842; height := 1191 |}.

Definition exampleOptions : SplitOptions :=
  {| orientation := Auto; splitRatio := 0.5; evenSplitRatio := Some 0.3;
     useDualRatios := true; mergeToSingleFile := true;
     enablePageNumbering := true; startingPageNumber := 5;
     numberingStartFromPageIndex := 0; numberingSide := Both |}.

(** A state of the component reached by loading a two-page file,
    switching numbering and dual ratios on, and moving to page 2. *)
Definition exampleState : App.State :=
  App.after
    [App.FileChange; App.PreviewLoaded 2 a3Landscape; App.ToggleNumbering;
     App.ToggleDualRatios; App.SetEvenSplitRatio 0.3;
     App.InputStartingPageNumber (Some 5%Z); App.GoToNextPage;
     App.PreviewLoaded 2 a3Portrait].

(* ------------------------------------------------------------------ *)
(** ** types.ts: the processing status *)

Module Status.

(** [step: 'idle' | 'loading' | 'processing' | 'completed' | 'error']. *)
Inductive Step := Idle | Loading | Processing | Completed | Error.

Record ProcessingStatus := {
  step : Step;
  progress : Q;
  message : string
}.

End Status.

(* ------------------------------------------------------------------ *)
(** ** App.tsx: the preview effect, the overlay and [handleProcess] *)

Module AppView.

(** [Math.round]: the nearest integer, halves going up. *)
Definition Math_round (q : Q) : Z := Qfloor (q + (1 # 2)).

(** [const pageToLoad = Math.min(Math.max(1, currentPage), pdf.numPages)]. *)
Definition pageToLoad (currentPage numPages : Z) : Z :=
  Z.min (Z.max 1 currentPage) numPages.

(** [page.getViewport({ scale })] of pdf.js on an unrotated page. *)
Definition getViewport (viewport : Size) (scale : Q) : Size :=
  {| width := width viewport * scale; height := height viewport * scale |}.

(** [fitScale] of [renderPreview], from the client size of the wrapper
    and the viewport of the page at scale 1. *)
Definition fitScale (clientWidth clientHeight : Q) (viewport : Size) : Q :=
  let containerWidth := clientWidth - 80 in
  let containerHeight := clientHeight - 80 in
  let scaleX := containerWidth / width viewport in
  let scaleY := containerHeight / height viewport in
  Qmin (Qmin scaleX scaleY) 1.2.

(** The offset of the dashed cut line, in percent: [left] for a
    vertical split, [top] for a horizontal one. *)
Definition splitLinePercent (st : App.State) : Q :=
  App.currentActiveRatio st * 100.

(** The [value] of the start-page input:
    [numberingStartFromPageIndex + 1]. *)
Definition startPageInputValue (st : App.State) : Z :=
  JsNumber.add (App.numberingStartFromPageIndex st) 1.

(** The double the service passes to [onProgress] where the model
    passes the exact percentage [progress]:
    [((i + 1) / totalPages) * 100], the quotient rounded, then the
    product. *)
Definition progressDouble (progress : Q) : Q :=
  JsNumber.fl (JsNumber.fl (progress / 100) * 100).

(** The updater [handleProcess] hands to the service as [onProgress]:
    [prev => ({ ...prev, progress, message: ... })]. *)
Definition reportProgress (prev : Status.ProcessingStatus) (progress : Q)
  : Status.ProcessingStatus :=
  {| Status.step := Status.step prev;
     Status.progress := progress;
     Status.message :=
       ("处理进度: " ++ template (Math_round (progressDouble progress))
        ++ "%")%string |}.

(** The statuses the successive calls of the callback produce. *)
Fixpoint statusesAfter (prev : Status.ProcessingStatus) (calls : list Q)
  : list Status.ProcessingStatus :=
  match calls with
  | [] => []
  | progress :: calls' =>
      let next := reportProgress prev progress in
      next :: statusesAfter next calls'
  end.

Definition statusProcessing : Status.ProcessingStatus :=
  {| Status.step := Status.Processing; Status.progress := 0;
     Status.message := "正在进行高级分割..." |}.

Definition statusCompleted : Status.ProcessingStatus :=
  {| Status.step := Status.Completed; Status.progress := 100;
     Status.message := "转换成功完成！" |}.

Definition statusError : Status.ProcessingStatus :=
  {| Status.step := Status.Error; Status.progress := 0;
     Status.message := "处理 PDF 时发生错误。" |}.

(** [handleProcess]: the statuses it sets, oldest first, and the
    document behind [processedFileUrl] when one is set.  [file] is
    [None] when no file is selected. *)
Definition handleProcess {lib : PDFLib}
    (file : option (list Byte.byte)) (st : App.State)
  : list Status.ProcessingStatus * option (list PDFPage) :=
  match file with
  | None => ([], None)
  | Some bytes =>
      let '(outcome, calls) := run (splitA3ToA4 bytes (App.options st)) in
      let reported := statusesAfter statusProcessing calls in
      match outcome with
      | Resolved processedBytes =>
          (statusProcessing :: reported ++ [statusCompleted],
           Some processedBytes)
      | Rejected _ =>
          (statusProcessing :: reported ++ [statusError], None)
      end
  end.

End AppView.

(* ------------------------------------------------------------------ *)
(** ** Further vocabulary *)

(** The range of the two ratio sliders: [min="0.1" max="0.9"]. *)
Definition sliderRange (r : Q) : Prop := 0.1 <= r /\ r <= 0.9.

(** The ratio events of a sequence carry slider values. *)
Definition fromSliders (e : App.Event) : Prop :=
  match e with
  | App.SetSplitRatio r | App.SetEvenSplitRatio r => sliderRange r
  | _ => True
  end.

(** Two option objects that agree on every field but
    [evenSplitRatio]. *)
Definition sameExceptEvenRatio (o1 o2 : SplitOptions) : Prop :=
  orientation o1 = orientation o2
  /\ splitRatio o1 = splitRatio o2
  /\ useDualRatios o1 = useDualRatios o2
  /\ enablePageNumbering o1 = enablePageNumbering o2
  /\ startingPageNumber o1 = startingPageNumber o2
  /\ numberingStartFromPageIndex o1 = numberingStartFromPageIndex o2
  /\ numberingSide o1 = numberingSide o2.

(** Two option objects that agree on the fields of the split
    (orientation and ratios). *)
Definition sameSplit (o1 o2 : SplitOptions) : Prop :=
  orientation o1 = orientation o2
  /\ splitRatio o1 = splitRatio o2
  /\ evenSplitRatio o1 = evenSplitRatio o2
  /\ useDualRatios o1 = useDualRatios o2.

(** Two option objects that agree on every field but [orientation]. *)
Definition sameExceptOrientation (o1 o2 : SplitOptions) : Prop :=
  splitRatio o1 = splitRatio o2
  /\ evenSplitRatio o1 = evenSplitRatio o2
  /\ useDualRatios o1 = useDualRatios o2
  /\ enablePageNumbering o1 = enablePageNumbering o2
  /\ startingPageNumber o1 = startingPageNumber o2
  /\ numberingStartFromPageIndex o1 = numberingStartFromPageIndex o2
  /\ numberingSide o1 = numberingSide o2.

(** A library whose parser accepts every file as [pages] and whose
    font embedder fails. *)
Definition fontRejectingLib (pages : list Size) : PDFLib :=
  {| load := fun _ => Resolved pages;
     embedFont := fun _ => Rejected FontError |}.

(** The two labels of a numbered page whose first number is [c]. *)
Definition labelsFrom (side : NumberingSide) (c : Z) : option Z * option Z :=
  match side with
  | Both => (Some c, Some (c + 1)%Z)
  | First => (Some c, None)
  | Second => (None, Some c)
  end.

(** The numbering of a document of [pageCount] pages that starts at
    [start] stays within the safe integers: the start, twice the page
    count, and the largest value the counter can reach. *)
Definition safeNumbering (start pageCount : Z) : Prop :=
  (- JsNumber.MAX_SAFE_INTEGER <= start)%Z
  /\ (2 * pageCount <= JsNumber.MAX_SAFE_INTEGER)%Z
  /\ (start + 2 * pageCount <= JsNumber.MAX_SAFE_INTEGER)%Z.

(** The documents the preview loads have at least one page. *)
Definition loadsAPage (e : App.Event) : Prop :=
  match e with
  | App.PreviewLoaded numPages _ => (1 <= numPages)%Z
  | _ => True
  end.

(** Options that start the numbering at 2^53, the first integer whose
    successor is not a double. *)
Definition optionsAt2To53 : SplitOptions :=
  {| orientation := Auto; splitRatio := 0.5; evenSplitRatio := Some 0.3;
     useDualRatios := true; mergeToSingleFile := true;
     enablePageNumbering := true; startingPageNumber := 9007199254740992;
     numberingStartFromPageIndex := 0; numberingSide := Both |}.

(** A state of the component in which the user has typed 2^53 as the
    starting page number and moved to page 2 of a two-page file. *)
Definition stateAt2To53 : App.State :=
  App.after
    [App.FileChange; App.PreviewLoaded 2 a3Landscape; App.ToggleNumbering;
     App.InputStartingPageNumber (Some 9007199254740992%Z);
     App.GoToNextPage].

(* ================================================================== *)
(** * Properties *)

(* ------------------------------------------------------------------ *)
(** ** Arithmetic on safe integers is exact *)

Lemma toDouble_safe (z : Z) :
  (Z.abs z <= 2 ^ 53)%Z -> JsNumber.toDouble z = z.
Proof.
  intros H. unfold JsNumber.toDouble. apply Z.leb_le in H. now rewrite H.
Qed.

Lemma add_safe (a b : Z) :
  (- JsNumber.MAX_SAFE_INTEGER <= a + b <= JsNumber.MAX_SAFE_INTEGER)%Z ->
  JsNumber.add a b = (a + b)%Z.
Proof.
  unfold JsNumber.MAX_SAFE_INTEGER. intros H. apply toDouble_safe. lia.
Qed.

Lemma sub_safe (a b : Z) :
  (- JsNumber.MAX_SAFE_INTEGER <= a - b <= JsNumber.MAX_SAFE_INTEGER)%Z ->
  JsNumber.sub a b = (a - b)%Z.
Proof.
  unfold JsNumber.MAX_SAFE_INTEGER. intros H. apply toDouble_safe. lia.
Qed.

Lemma mul_safe (a b : Z) :
  (- JsNumber.MAX_SAFE_INTEGER <= a * b <= JsNumber.MAX_SAFE_INTEGER)%Z ->
  JsNumber.mul a b = (a * b)%Z.
Proof.
  unfold JsNumber.MAX_SAFE_INTEGER. intros H. apply toDouble_safe. lia.
Qed.

(* ------------------------------------------------------------------ *)
(** ** Rounding to the nearest double *)

Lemma roundHalfEven_nonneg (num den : Z) :
  (0 <= num)%Z -> (0 < den)%Z -> (0 <= JsNumber.roundHalfEven num den)%Z.
Proof.
  intros Hn Hd. unfold JsNumber.roundHalfEven.
  pose proof (Z.div_pos num den Hn Hd) as Hq. cbv zeta.
  destruct (_ <? _)%Z; [lia|]. destruct (_ <? _)%Z; [lia|].
  destruct (Z.even _); lia.
Qed.

(** Rounding does not pass an integer. *)
Lemma roundHalfEven_le (num den bound : Z) :
  (0 < den)%Z -> (num <= bound * den)%Z ->
  (JsNumber.roundHalfEven num den <= bound)%Z.
Proof.
  intros Hd Hb. unfold JsNumber.roundHalfEven. cbv zeta.
  pose proof (Z.div_mod num den ltac:(lia)) as Hdm.
  pose proof (Z.mod_pos_bound num den Hd) as Hr.
  assert (Hq : (num / den <= bound)%Z) by nia.
  assert (Hq' : (0 < num mod den -> num / den + 1 <= bound)%Z) by nia.
  destruct (Z.ltb_spec (2 * (num mod den)) den); [lia|].
  destruct (Z.ltb_spec den (2 * (num mod den))); [lia|].
  destruct (Z.even _); lia.
Qed.

Lemma roundHalfEven_exact (n den : Z) :
  (0 < den)%Z -> JsNumber.roundHalfEven (n * den) den = n.
Proof.
  intros Hd. unfold JsNumber.roundHalfEven. cbv zeta.
  rewrite Z.mod_mul, Z.div_mul by lia.
  destruct (Z.ltb_spec (2 * 0) den); [reflexivity | lia].
Qed.

(** Rounding depends on the quotient only, not on the fraction that
    presents it. *)
Lemma roundHalfEven_ratio (num1 den1 num2 den2 : Z) :
  (0 < den1)%Z -> (0 < den2)%Z -> (num1 * den2 = num2 * den1)%Z ->
  JsNumber.roundHalfEven num1 den1 = JsNumber.roundHalfEven num2 den2.
Proof.
  intros Hd1 Hd2 Heq. unfold JsNumber.roundHalfEven. cbv zeta.
  pose proof (Z.div_mod num1 den1 ltac:(lia)) as Hdm1.
  pose proof (Z.mod_pos_bound num1 den1 Hd1) as Hr1.
  pose proof (Z.div_mod num2 den2 ltac:(lia)) as Hdm2.
  pose proof (Z.mod_pos_bound num2 den2 Hd2) as Hr2.
  set (q1 := (num1 / den1)%Z) in *. set (r1 := (num1 mod den1)%Z) in *.
  set (q2 := (num2 / den2)%Z) in *. set (r2 := (num2 mod den2)%Z) in *.
  assert (HD : (0 < den1 * den2)%Z) by nia.
  assert (Hb1 : (0 <= r1 * den2 < den1 * den2)%Z) by nia.
  assert (Hb2 : (0 <= r2 * den1 < den1 * den2)%Z) by nia.
  assert (Hc : (den1 * den2 * (q1 - q2) = r2 * den1 - r1 * den2)%Z).
  { replace (den1 * den2 * (q1 - q2))%Z
      with (den2 * (den1 * q1) - den1 * (den2 * q2))%Z by ring.
    replace (den1 * q1)%Z with (num1 - r1)%Z by lia.
    replace (den2 * q2)%Z with (num2 - r2)%Z by lia.
    replace (den2 * (num1 - r1))%Z with (num1 * den2 - r1 * den2)%Z by ring.
    replace (den1 * (num2 - r2))%Z with (num2 * den1 - r2 * den1)%Z by ring.
    lia. }
  assert (Hq : q1 = q2).
  { destruct (Z.lt_trichotomy q1 q2) as [Hlt|[Heq'|Hlt]]; [|exact Heq'|];
      exfalso; nia. }
  assert (Hr : (r1 * den2 = r2 * den1)%Z) by (rewrite Hq in Hc; lia).
  rewrite <- Hq.
  destruct (Z.ltb_spec (2 * r1) den1); destruct (Z.ltb_spec (2 * r2) den2);
    try reflexivity; try nia.
  destruct (Z.ltb_spec den1 (2 * r1)); destruct (Z.ltb_spec den2 (2 * r2));
    try reflexivity; nia.
Qed.

(** The exponent of a number that is at most an integer below 2^51 is
    negative, and it puts the mantissa between 2^52 and 2^53. *)
Lemma exponent_spec (a b c : Z) :
  (0 < a)%Z -> (0 < b)%Z -> (1 <= c < 2 ^ 51)%Z -> (a <= c * b)%Z ->
  let e := JsNumber.exponent a b in
  (e <= -1)%Z /\ (2 ^ 52 * b <= a * 2 ^ (- e) < 2 ^ 53 * b)%Z.
Proof.
  intros Ha Hb Hc Hab. cbv zeta. unfold JsNumber.exponent.
  set (la := Z.log2 a). set (lb := Z.log2 b).
  destruct (Z.log2_spec a Ha) as [Hla Hla']. fold la in Hla, Hla'.
  destruct (Z.log2_spec b Hb) as [Hlb Hlb']. fold lb in Hlb, Hlb'.
  assert (H0a : (0 <= la)%Z) by apply Z.log2_nonneg.
  assert (H0b : (0 <= lb)%Z) by apply Z.log2_nonneg.
  cbv zeta. set (e0 := (la - lb - 52)%Z).
  assert (He0 : (e0 <= -1)%Z).
  { pose proof (Z.log2_le_mono a (c * b) Hab) as H1.
    pose proof (Z.log2_mul_above c b ltac:(lia) ltac:(lia)) as H2.
    assert (Z.log2 c < 51)%Z by (apply Z.log2_lt_pow2; lia).
    subst e0 la lb. lia. }
  rewrite (Z.max_l 0 e0), (Z.max_r 0 (- e0)), Z.pow_0_r, Z.mul_1_r by lia.
  set (s := (- e0)%Z) in *.
  assert (Hs : (0 < 2 ^ s)%Z) by (apply Z.pow_pos_nonneg; lia).
  assert (Hpow : (2 ^ la * 2 ^ s = 2 ^ lb * 2 ^ 52)%Z).
  { rewrite <- !Z.pow_add_r by lia. f_equal. subst s e0. lia. }
  replace (la + 1)%Z with (Z.succ la) in Hla' by lia.
  replace (lb + 1)%Z with (Z.succ lb) in Hlb' by lia.
  rewrite Z.pow_succ_r in Hla', Hlb' by lia.
  destruct (Z.leb_spec (2 ^ 52 * b) (a * 2 ^ s)) as [Hle|Hgt].
  - split; [exact He0|]. replace (- e0)%Z with s by (subst s; lia).
    split; [exact Hle|]. nia.
  - split; [lia|].
    replace (- (e0 - 1))%Z with (Z.succ s) by (subst s; lia).
    rewrite Z.pow_succ_r by lia. nia.
Qed.

Lemma fl_nonneg (q : Q) : 0 <= q -> 0 <= JsNumber.fl q.
Proof.
  destruct q as [n d]. intros Hq. unfold Qle in Hq. cbn [Qnum Qden] in Hq.
  unfold JsNumber.fl. cbn [Qnum Qden].
  destruct n as [|p|p]; [now cbn | | lia].
  cbv zeta. cbn [Z.sgn Z.abs].
  set (e := JsNumber.exponent _ _).
  apply Qle_shift_div_l.
  - change 0 with (inject_Z 0). rewrite <- Zlt_Qlt.
    apply Z.pow_pos_nonneg; lia.
  - rewrite Qmult_0_l. change 0 with (inject_Z 0). rewrite <- Zle_Qle.
    apply Z.mul_nonneg_nonneg; [|apply Z.pow_nonneg; lia].
    rewrite Z.mul_1_l. apply roundHalfEven_nonneg.
    + apply Z.mul_nonneg_nonneg; [lia | apply Z.pow_nonneg; lia].
    + apply Z.mul_pos_pos; [lia | apply Z.pow_pos_nonneg; lia].
Qed.

(** The double nearest to a number that is at most the integer [c]
    is at most [c]. *)
Lemma fl_le_integer (q : Q) (c : Z) :
  (1 <= c < 2 ^ 51)%Z -> 0 <= q -> q <= inject_Z c ->
  JsNumber.fl q <= inject_Z c.
Proof.
  intros Hc. destruct q as [n d]. unfold Qle at 1 2. cbn [Qnum Qden inject_Z].
  intros H0 Hq. unfold JsNumber.fl. cbn [Qnum Qden].
  destruct n as [|p|p]; [| | lia].
  { change 0 with (inject_Z 0). rewrite <- Zle_Qle. lia. }
  cbv zeta. cbn [Z.sgn Z.abs].
  destruct (@exponent_spec (Z.pos p) (Z.pos d) c) as [He _];
    [lia | lia | exact Hc | lia |]. cbv zeta in He.
  set (e := JsNumber.exponent _ _) in *.
  rewrite (Z.max_l 0 e), (Z.max_r 0 (- e)) by lia.
  rewrite Z.pow_0_r, !Z.mul_1_r, Z.mul_1_l.
  assert (Hp : (0 < 2 ^ (- e))%Z) by (apply Z.pow_pos_nonneg; lia).
  apply Qle_shift_div_r.
  - change 0 with (inject_Z 0). now rewrite <- Zlt_Qlt.
  - rewrite <- inject_Z_mult, <- Zle_Qle.
    apply roundHalfEven_le; [lia | nia].
Qed.

(** A number has one exponent: a mantissa between 2^52 and 2^53 at
    one exponent is not in that range at a smaller one. *)
Lemma mantissa_unique (a1 d1 a2 d2 P T K : Z) :
  (0 < d1)%Z -> (0 < d2)%Z -> (0 < P)%Z -> (2 <= T)%Z -> (0 < K)%Z ->
  (a1 * d2 = a2 * d1)%Z ->
  (a1 * (P * T) < 2 * K * d1)%Z -> (K * d2 <= a2 * P)%Z -> False.
Proof.
  intros Hd1 Hd2 HP HT HK Heq Hup Hlo.
  set (X := (a1 * d2 * P)%Z).
  assert (H1 : (K * d2 * d1 <= a2 * P * d1)%Z)
    by (apply Z.mul_le_mono_nonneg_r; lia).
  assert (H2 : (a1 * (P * T) * d2 < 2 * K * d1 * d2)%Z)
    by (apply Z.mul_lt_mono_pos_r; lia).
  assert (H3 : (a2 * P * d1 = X)%Z) by (subst X; rewrite Heq; ring).
  assert (H4 : (a1 * (P * T) * d2 = X * T)%Z) by (subst X; ring).
  assert (H5 : (0 < K * d2 * d1)%Z) by (repeat apply Z.mul_pos_pos; lia).
  assert (H6 : (X * 2 <= X * T)%Z) by (apply Z.mul_le_mono_nonneg_l; lia).
  replace (2 * K * d1 * d2)%Z with (2 * (K * d2 * d1))%Z in H2 by ring.
  lia.
Qed.

(** Rounding gives equal doubles for equal numbers (here, for numbers
    between 0 and 2^51). *)
Lemma fl_comp (p q : Q) (c : Z) :
  (1 <= c < 2 ^ 51)%Z -> 0 <= p -> p <= inject_Z c -> p == q ->
  JsNumber.fl p == JsNumber.fl q.
Proof.
  intros Hc. destruct p as [n1 d1], q as [n2 d2].
  unfold Qle at 1 2, Qeq at 1. cbn [Qnum Qden inject_Z].
  intros H0 Hp Heq. unfold JsNumber.fl. cbn [Qnum Qden].
  destruct n1 as [|a1|a1]; [| | lia].
  { destruct n2; [reflexivity | lia | lia]. }
  destruct n2 as [|a2|a2]; [lia | | lia].
  cbv zeta. cbn [Z.sgn Z.abs].
  destruct (@exponent_spec (Z.pos a1) (Z.pos d1) c) as [He1 Hm1];
    [lia | lia | exact Hc | lia |].
  destruct (@exponent_spec (Z.pos a2) (Z.pos d2) c) as [He2 Hm2];
    [lia | lia | exact Hc | nia |].
  cbv zeta in He1, Hm1, He2, Hm2.
  set (e1 := JsNumber.exponent (Z.pos a1) (Z.pos d1)) in *.
  set (e2 := JsNumber.exponent (Z.pos a2) (Z.pos d2)) in *.
  assert (He : e1 = e2).
  { destruct (Z.lt_trichotomy e1 e2) as [Hlt|[Heq'|Hlt]]; [|exact Heq'|];
      exfalso.
    - replace (- e1)%Z with (- e2 + (e2 - e1))%Z in Hm1 by lia.
      rewrite Z.pow_add_r in Hm1 by lia.
      apply (@mantissa_unique (Z.pos a1) (Z.pos d1) (Z.pos a2) (Z.pos d2)
               (2 ^ (- e2)) (2 ^ (e2 - e1)) (2 ^ 52)); try lia;
        first [ apply Z.pow_pos_nonneg; lia
              | change 2%Z with (2 ^ 1)%Z at 1; apply Z.pow_le_mono_r; lia ].
    - replace (- e2)%Z with (- e1 + (e1 - e2))%Z in Hm2 by lia.
      rewrite Z.pow_add_r in Hm2 by lia.
      apply (@mantissa_unique (Z.pos a2) (Z.pos d2) (Z.pos a1) (Z.pos d1)
               (2 ^ (- e1)) (2 ^ (e1 - e2)) (2 ^ 52)); try lia;
        first [ apply Z.pow_pos_nonneg; lia
              | change 2%Z with (2 ^ 1)%Z at 1; apply Z.pow_le_mono_r; lia ]. }
  rewrite <- He.
  rewrite (Z.max_l 0 e1), (Z.max_r 0 (- e1)), Z.pow_0_r, !Z.mul_1_r by lia.
  rewrite (@roundHalfEven_ratio (Z.pos a1 * 2 ^ (- e1)) (Z.pos d1)
             (Z.pos a2 * 2 ^ (- e1)) (Z.pos d2)); [reflexivity | lia | lia |].
  replace (Z.pos a1 * 2 ^ (- e1) * Z.pos d2)%Z
    with (Z.pos a1 * Z.pos d2 * 2 ^ (- e1))%Z by ring.
  rewrite Heq. ring.
Qed.

(** An integer below 2^51 is a double. *)
Lemma fl_integer (q : Q) (c : Z) :
  (1 <= c < 2 ^ 51)%Z -> q == inject_Z c -> JsNumber.fl q == inject_Z c.
Proof.
  intros Hc. destruct q as [n d]. unfold Qeq at 1. cbn [Qnum Qden inject_Z].
  intros Hq. unfold JsNumber.fl. cbn [Qnum Qden].
  destruct n as [|p|p]; [lia | | lia].
  cbv zeta. cbn [Z.sgn Z.abs].
  destruct (@exponent_spec (Z.pos p) (Z.pos d) c) as [He Hm];
    [lia | lia | exact Hc | lia |]. cbv zeta in He, Hm.
  set (e := JsNumber.exponent _ _) in *.
  rewrite (Z.max_l 0 e), (Z.max_r 0 (- e)) by lia.
  rewrite Z.pow_0_r, !Z.mul_1_r, Z.mul_1_l.
  assert (Hp : (0 < 2 ^ (- e))%Z) by (apply Z.pow_pos_nonneg; lia).
  replace (Z.pos p * 2 ^ (- e))%Z with (c * 2 ^ (- e) * Z.pos d)%Z by nia.
  rewrite roundHalfEven_exact by lia.
  rewrite inject_Z_mult. field.
  intros H0. change 0 with (inject_Z 0) in H0. rewrite inject_Z_injective in H0.
  lia.
Qed.

Lemma Qdiv_100 (q : Q) : q / 100 * 100 == q.
Proof. field. Qed.

(* ------------------------------------------------------------------ *)
(** ** What the loop computes *)

Section LoopFacts.

Context {lib : PDFLib}.
Local Open Scope nat_scope.
Variable options : SplitOptions.
Variable font : PDFFont.

(** The counter a turn hands on does not depend on the size of the
    page. *)
Lemma splitPage_counter (i : nat) (sz : Size) (c : Z) :
  snd (splitPage options font i sz c) = nextCounter options font i c.
Proof.
  unfold nextCounter, splitPage.
  do 2 destruct (setCropBoxes _ _ _ _ _) as [? ?].
  destruct (shouldAddNumberToThisA3Page options i);
    destruct (numbersFirst options); destruct (numbersSecond options);
    reflexivity.
Qed.

Lemma stampsOn_range (i : nat) : (0 <= stampsOn options i <= 2)%Z.
Proof.
  unfold stampsOn.
  destruct (shouldAddNumberToThisA3Page options i);
    destruct (numbersFirst options); destruct (numbersSecond options);
    cbn; lia.
Qed.

(** On safe integers a turn advances the counter by the number of
    halves it stamps. *)
Lemma nextCounter_safe (i : nat) (c : Z) :
  (- JsNumber.MAX_SAFE_INTEGER <= c)%Z ->
  (c + 2 <= JsNumber.MAX_SAFE_INTEGER)%Z ->
  nextCounter options font i c = (c + stampsOn options i)%Z.
Proof.
  intros Hlo Hhi. unfold nextCounter, splitPage, stampsOn.
  destruct (setCropBoxes _ _ _ _ _) as [p1 p2].
  destruct (shouldAddNumberToThisA3Page options i);
    destruct (numbersFirst options); destruct (numbersSecond options);
    cbn [fst snd drawPageNumber Z.b2z];
    rewrite ?add_safe; rewrite ?add_safe; lia.
Qed.

Lemma forLoop_unfolded (totalPages : nat) (rest : list Size) :
  forall (st : LoopState) (calls : list Q),
    forLoop options font totalPages rest st calls
    = (Resolved
         {| i := i st + List.length rest;
            pageNumberCounter :=
              counterFrom options font (i st) (pageNumberCounter st)
                (List.length rest);
            outPdf :=
              outPdf st
              ++ pagesFrom options font (i st) (pageNumberCounter st) rest |},
       calls ++ map (fun k => progressValue k totalPages)
                    (seq (i st) (List.length rest))).
Proof.
  induction rest as [|sz rest' IH]; intros st calls.
  - cbn. destruct st; cbn. now rewrite Nat.add_0_r, !app_nil_r.
  - cbn [forLoop]. unfold bind at 1. unfold loopBody.
    pose proof (splitPage_counter (i st) sz (pageNumberCounter st)) as Hc.
    cbn [pagesFrom List.length seq map counterFrom].
    destruct (splitPage options font (i st) sz (pageNumberCounter st))
      as [[page1 page2] c'].
    cbn in Hc. subst c'.
    unfold bind, onProgress, ret. rewrite IH. cbn [i pageNumberCounter outPdf].
    rewrite <- !app_assoc. cbn [app].
    now replace (S (i st) + List.length rest')%nat
      with (i st + S (List.length rest'))%nat by lia.
Qed.

(** The whole call, when the document parses and the font embeds. *)
Lemma splitA3ToA4_unfolded (file : list Byte.byte) (pages : list Size) :
  load file = Resolved pages ->
  embedFont Helvetica = Resolved font ->
  run (splitA3ToA4 file options)
  = (Resolved
       (save (pagesFrom options font 0 (startingPageNumber options) pages)),
     map (fun k => progressValue k (List.length pages))
         (seq 0 (List.length pages))).
Proof.
  intros Hload Hfont. unfold run, splitA3ToA4, bind, await.
  rewrite Hload, Hfont, forLoop_unfolded. reflexivity.
Qed.

Lemma pagesFrom_length (rest : list Size) :
  forall i c,
    List.length (pagesFrom options font i c rest) = 2 * List.length rest.
Proof.
  induction rest as [|sz rest' IH]; intros i c; cbn [pagesFrom List.length].
  - reflexivity.
  - destruct (splitPage options font i sz c) as [[page1 page2] c'].
    cbn [List.length]. rewrite IH. lia.
Qed.

(** [save] leaves the output of a document with pages as the loop made
    it. *)
Lemma save_pagesFrom (rest : list Size) (i : nat) (c : Z) :
  rest <> [] ->
  save (pagesFrom options font i c rest) = pagesFrom options font i c rest.
Proof.
  destruct rest as [|sz rest']; [easy|]. intros _. cbn [pagesFrom].
  now destruct (splitPage options font i sz c) as [[page1 page2] c'].
Qed.

(** Output pages [2k] and [2k+1] are the two pages of the turn of
    source page [i + k]. *)
Lemma pagesFrom_nth (rest : list Size) :
  forall i c k sz,
    nth_error rest k = Some sz ->
    let r :=
      splitPage options font (i + k) sz (counterFrom options font i c k) in
    nth_error (pagesFrom options font i c rest) (2 * k) = Some (fst (fst r))
    /\ nth_error (pagesFrom options font i c rest) (2 * k + 1)
       = Some (snd (fst r)).
Proof.
  induction rest as [|sz0 rest' IH]; intros i c k sz Hk.
  - destruct k; discriminate.
  - cbn [pagesFrom].
    pose proof (splitPage_counter i sz0 c) as Hc.
    destruct k as [|k'].
    + cbn in Hk. injection Hk as ->. cbn [counterFrom]. rewrite Nat.add_0_r.
      destruct (splitPage options font i sz c) as [[page1 page2] c'].
      cbn. split; reflexivity.
    + cbn in Hk. cbn [counterFrom].
      destruct (splitPage options font i sz0 c) as [[page1 page2] c'].
      cbn in Hc. subst c'.
      replace (2 * S k') with (S (S (2 * k'))) by lia.
      replace (i + S k') with (S i + k') by lia.
      cbn [nth_error Nat.add]. apply IH. exact Hk.
Qed.

End LoopFacts.

(** The pages of a turn, numbering block folded away. *)
Section PageFacts.

Variable options : SplitOptions.
Variable font : PDFFont.

Lemma splitPage_first (i : nat) (sz : Size) (c : Z) :
  fst (fst (splitPage options font i sz c))
  = if shouldAddNumberToThisA3Page options i && numbersFirst options
    then fst (drawPageNumber font (fst (croppedCopies options i sz)) c)
    else fst (croppedCopies options i sz).
Proof.
  unfold splitPage, croppedCopies.
  destruct (setCropBoxes _ _ _ _ _) as [p1 p2].
  destruct (shouldAddNumberToThisA3Page options i);
    destruct (numbersFirst options); destruct (numbersSecond options);
    reflexivity.
Qed.

Lemma splitPage_second (i : nat) (sz : Size) (c : Z) :
  snd (fst (splitPage options font i sz c))
  = if shouldAddNumberToThisA3Page options i && numbersSecond options
    then fst (drawPageNumber font (snd (croppedCopies options i sz))
                (if shouldAddNumberToThisA3Page options i
                    && numbersFirst options
                 then JsNumber.add c 1 else c))
    else snd (croppedCopies options i sz).
Proof.
  unfold splitPage, croppedCopies.
  destruct (setCropBoxes _ _ _ _ _) as [p1 p2].
  destruct (shouldAddNumberToThisA3Page options i);
    destruct (numbersFirst options); destruct (numbersSecond options);
    reflexivity.
Qed.

Lemma croppedCopies_frame (i : nat) (sz : Size) :
  let '(page1, page2) := croppedCopies options i sz in
  copiedFrom page1 = Some i /\ copiedFrom page2 = Some i
  /\ mediaBox page1 = sz /\ mediaBox page2 = sz
  /\ drawn page1 = [] /\ drawn page2 = []
  /\ (getCropBox page1, getCropBox page2)
     = cropRectangles (useVerticalSplit options sz) (currentRatio options i) sz.
Proof.
  unfold croppedCopies, cropRectangles, setCropBoxes.
  destruct (useVerticalSplit options sz); repeat split.
Qed.

(** What does not depend on the numbering: provenance, media box and
    crop window of the two output pages of source page [i]. *)
Lemma splitPage_frame (i : nat) (sz : Size) (c : Z) :
  let r := splitPage options font i sz c in
  copiedFrom (fst (fst r)) = Some i /\ copiedFrom (snd (fst r)) = Some i
  /\ mediaBox (fst (fst r)) = sz /\ mediaBox (snd (fst r)) = sz
  /\ (getCropBox (fst (fst r)), getCropBox (snd (fst r)))
     = cropRectangles (useVerticalSplit options sz) (currentRatio options i) sz.
Proof.
  cbv zeta. rewrite splitPage_first, splitPage_second.
  pose proof (croppedCopies_frame i sz) as H.
  destruct (croppedCopies options i sz) as [p1 p2]. cbn [fst snd].
  destruct H as (H1 & H2 & H3 & H4 & _ & _ & H5).
  destruct (shouldAddNumberToThisA3Page options i && numbersFirst options);
    destruct (shouldAddNumberToThisA3Page options i && numbersSecond options);
    repeat split; assumption.
Qed.

End PageFacts.

(** ** The output pages of a source page *)

(** The two output pages of source page [k]: what the loop appended at
    positions [2k] and [2k+1]. *)
Lemma output_pages_of_source_page
    (lib : PDFLib) (file : list Byte.byte) (options : SplitOptions)
    (pages : list Size) (font : PDFFont) (k : nat) (sz : Size) :
  load file = Resolved pages ->
  embedFont Helvetica = Resolved font ->
  nth_error pages k = Some sz ->
  let turn :=
    splitPage options font k sz
      (counterFrom options font 0 (startingPageNumber options) k) in
  exists out : list PDFPage,
    fst (run (splitA3ToA4 file options)) = Resolved out
    /\ nth_error out (2 * k) = Some (fst (fst turn))
    /\ nth_error out (2 * k + 1) = Some (snd (fst turn)).
Proof.
  intros Hload Hfont Hk.
  rewrite (splitA3ToA4_unfolded options file Hload Hfont). cbn [fst].
  rewrite save_pagesFrom by (intros ->; destruct k; discriminate).
  eexists; split; [reflexivity|].
  exact (pagesFrom_nth options font pages 0 (startingPageNumber options) k Hk).
Qed.

Lemma Qgtb_true (a b : Q) : Qgtb a b = true <-> b < a.
Proof.
  unfold Qgtb. rewrite negb_true_iff, <- not_true_iff_false, Qle_bool_iff.
  split; [apply Qnot_le_lt | apply Qlt_not_le].
Qed.

Lemma useVerticalSplit_true (options : SplitOptions) (sz : Size) :
  useVerticalSplit options sz = true
  <-> orientation options = Vertical
      \/ (orientation options = Auto /\ height sz < width sz).
Proof.
  unfold useVerticalSplit. destruct (orientation options); cbn.
  - rewrite Qgtb_true. split; [intros H; right; now split|].
    intros [H|[_ H]]; [discriminate | exact H].
  - split; [now left | reflexivity].
  - split; [discriminate|]. intros [H|[H _]]; discriminate.
Qed.

Lemma splitPage_cropBox (options : SplitOptions) (font : PDFFont)
    (i : nat) (sz : Size) (c : Z) :
  let r := splitPage options font i sz c in
  let windows :=
    cropRectangles (useVerticalSplit options sz) (currentRatio options i) sz in
  cropBox (fst (fst r)) = Some (fst windows)
  /\ cropBox (snd (fst r)) = Some (snd windows).
Proof.
  cbv zeta. rewrite splitPage_first, splitPage_second.
  unfold croppedCopies, cropRectangles, setCropBoxes.
  destruct (useVerticalSplit options sz);
    destruct (shouldAddNumberToThisA3Page options i && numbersFirst options);
    destruct (shouldAddNumberToThisA3Page options i && numbersSecond options);
    split; reflexivity.
Qed.

(** The two crop windows, written out. *)
Lemma cropRectangles_explicit (vertical : bool) (r : Q) (sz : Size) :
  let windows := cropRectangles vertical r sz in
  let w := width sz in
  let h := height sz in
  if vertical
  then Rectangle_eq (fst windows) (rectangle 0 0 (w * r) h)
       /\ Rectangle_eq (snd windows) (rectangle (w * r) 0 (w * (1 - r)) h)
  else Rectangle_eq (fst windows) (rectangle 0 (h * (1 - r)) w (h * r))
       /\ Rectangle_eq (snd windows) (rectangle 0 0 w (h * (1 - r))).
Proof.
  unfold cropRectangles, setCropBoxes, Rectangle_eq, rectangle.
  destruct vertical; cbn; repeat split; try reflexivity; ring.
Qed.

(* ------------------------------------------------------------------ *)
(** ** Page count and page order *)

(** C1, as first stated: "for every source document the output has
    exactly twice as many pages".  It fails on a document without
    pages: [save] gives the empty output a blank page, so the output has
    one page, not zero. *)
Lemma page_less_document_gets_one_page :
  fst (run (@splitA3ToA4 (exampleLib []) [] exampleOptions))
  = Resolved [addPage]
  /\ ~ (exists out : list PDFPage,
         fst (run (@splitA3ToA4 (exampleLib []) [] exampleOptions))
         = Resolved out
         /\ List.length out = (2 * List.length (@nil Size))%nat).
Proof.
  split; [reflexivity|].
  intros (out & Hout & Hlen). cbn in Hout. injection Hout as <-.
  discriminate.
Qed.

(** C1, amended: when the document has at least one page, parses and
    the font embeds, the call resolves with an output of exactly twice
    as many pages as the source, and for every source page [k] the
    output pages [2k] and [2k+1] are copies of that page, the first
    cropped to the first half (the left part [0, 0, w*r, h] of a
    vertical split, the upper part [0, h*(1-r), w, h*r] of a horizontal
    one) and the second to the second half (the right part
    [w*r, 0, w*(1-r), h], the lower part [0, 0, w, h*(1-r)]),
    whatever the options are. *)
Theorem output_two_pages_per_source_page
    (lib : PDFLib) (file : list Byte.byte) (options : SplitOptions)
    (pages : list Size) (font : PDFFont) :
  load file = Resolved pages ->
  embedFont Helvetica = Resolved font ->
  (1 <= List.length pages)%nat ->
  exists out : list PDFPage,
    fst (run (splitA3ToA4 file options)) = Resolved out
    /\ List.length out = (2 * List.length pages)%nat
    /\ forall (k : nat) (sz : Size),
         nth_error pages k = Some sz ->
         let w := width sz in
         let h := height sz in
         let r := currentRatio options k in
         exists (page1 page2 : PDFPage) (window1 window2 : Rectangle),
           nth_error out (2 * k) = Some page1
           /\ nth_error out (2 * k + 1) = Some page2
           /\ copiedFrom page1 = Some k /\ copiedFrom page2 = Some k
           /\ mediaBox page1 = sz /\ mediaBox page2 = sz
           /\ cropBox page1 = Some window1
           /\ cropBox page2 = Some window2
           /\ if useVerticalSplit options sz
              then Rectangle_eq window1 (rectangle 0 0 (w * r) h)
                   /\ Rectangle_eq window2
                        (rectangle (w * r) 0 (w * (1 - r)) h)
              else Rectangle_eq window1 (rectangle 0 (h * (1 - r)) w (h * r))
                   /\ Rectangle_eq window2 (rectangle 0 0 w (h * (1 - r))).
Proof.
  intros Hload Hfont Hn.
  rewrite (splitA3ToA4_unfolded options file Hload Hfont). cbn [fst].
  rewrite save_pagesFrom by (intros ->; cbn in Hn; lia).
  eexists; split; [reflexivity|]. split; [apply pagesFrom_length|].
  intros k sz Hk. cbv zeta.
  destruct (pagesFrom_nth options font pages 0 (startingPageNumber options)
              k Hk) as [H1 H2].
  cbn [Nat.add] in H1, H2.
  set (c := counterFrom options font 0 (startingPageNumber options) k) in *.
  destruct (splitPage_frame options font k sz c) as (F1 & F2 & F3 & F4 & _).
  destruct (splitPage_cropBox options font k sz c) as [C1 C2].
  do 4 eexists. split; [exact H1|]. split; [exact H2|].
  split; [exact F1|]. split; [exact F2|].
  split; [exact F3|]. split; [exact F4|].
  split; [exact C1|]. split; [exact C2|].
  apply cropRectangles_explicit.
Qed.

Lemma output_two_pages_per_source_page_witness :
  exists out : list PDFPage,
    fst (run (@splitA3ToA4 (exampleLib [a3Landscape; a3Portrait]) []
                exampleOptions)) = Resolved out
    /\ List.length out = (2 * 2)%nat
    /\ forall (k : nat) (sz : Size),
         nth_error [a3Landscape; a3Portrait] k = Some sz ->
         let w := width sz in
         let h := height sz in
         let r := currentRatio exampleOptions k in
         exists (page1 page2 : PDFPage) (window1 window2 : Rectangle),
           nth_error out (2 * k) = Some page1
           /\ nth_error out (2 * k + 1) = Some page2
           /\ copiedFrom page1 = Some k /\ copiedFrom page2 = Some k
           /\ mediaBox page1 = sz /\ mediaBox page2 = sz
           /\ cropBox page1 = Some window1
           /\ cropBox page2 = Some window2
           /\ if useVerticalSplit exampleOptions sz
              then Rectangle_eq window1 (rectangle 0 0 (w * r) h)
                   /\ Rectangle_eq window2
                        (rectangle (w * r) 0 (w * (1 - r)) h)
              else Rectangle_eq window1 (rectangle 0 (h * (1 - r)) w (h * r))
                   /\ Rectangle_eq window2 (rectangle 0 0 w (h * (1 - r))).
Proof.
  apply (@output_two_pages_per_source_page
           (exampleLib [a3Landscape; a3Portrait]) [] exampleOptions
           [a3Landscape; a3Portrait] exampleFont);
    first [reflexivity | cbn; lia].
Defined.

(* ------------------------------------------------------------------ *)
(** ** Failure of the parser *)

(** C8: when the parser rejects the bytes, the call rejects with the
    parser's error, resolves with no document, and the progress
    callback has not been called. *)
Theorem malformed_input_rejects_before_any_progress
    (lib : PDFLib) (file : list Byte.byte) (options : SplitOptions)
    (e : Error) :
  load file = Rejected e ->
  run (splitA3ToA4 file options) = (Rejected e, [])
  /\ forall out : list PDFPage,
       fst (run (splitA3ToA4 file options)) <> Resolved out.
Proof.
  intros Hload.
  assert (H : run (splitA3ToA4 file options) = (Rejected e, [])).
  { unfold run, splitA3ToA4, bind, await. now rewrite Hload. }
  split; [exact H|]. intros out. rewrite H. discriminate.
Qed.

Lemma malformed_input_rejects_before_any_progress_witness :
  run (@splitA3ToA4 rejectingLib [] exampleOptions) = (Rejected ParseError, [])
  /\ forall out : list PDFPage,
       fst (run (@splitA3ToA4 rejectingLib [] exampleOptions)) <> Resolved out.
Proof.
  apply (@malformed_input_rejects_before_any_progress
           rejectingLib [] exampleOptions ParseError).
  reflexivity.
Defined.

(* ------------------------------------------------------------------ *)
(** ** The option the service never reads *)

Lemma splitPage_ignores_merge (o1 o2 : SplitOptions) (font : PDFFont)
    (i : nat) (sz : Size) (c : Z) :
  sameExceptMerge o1 o2 ->
  splitPage o1 font i sz c = splitPage o2 font i sz c.
Proof.
  intros (H1 & H2 & H3 & H4 & H5 & H6 & H7 & H8).
  destruct o1, o2. cbn in *. subst. reflexivity.
Qed.

Lemma forLoop_ignores_merge (o1 o2 : SplitOptions) (font : PDFFont)
    (totalPages : nat) (rest : list Size) :
  sameExceptMerge o1 o2 ->
  forall (st : LoopState) (calls : list Q),
    forLoop o1 font totalPages rest st calls
    = forLoop o2 font totalPages rest st calls.
Proof.
  intros Hsame. induction rest as [|sz rest' IH]; intros st calls.
  - reflexivity.
  - cbn [forLoop]. unfold bind, loopBody.
    rewrite (splitPage_ignores_merge font (i st) sz (pageNumberCounter st)
               Hsame).
    destruct (splitPage o2 font (i st) sz (pageNumberCounter st))
      as [[page1 page2] c'].
    unfold onProgress, ret. apply IH.
Qed.

(** C10: two option objects that differ only in [mergeToSingleFile]
    give the same outcome (document or error) and the same sequence of
    progress values, whatever was reported before. *)
Theorem mergeToSingleFile_is_not_read
    (lib : PDFLib) (file : list Byte.byte) (o1 o2 : SplitOptions)
    (calls : list Q) :
  sameExceptMerge o1 o2 ->
  splitA3ToA4 file o1 calls = splitA3ToA4 file o2 calls.
Proof.
  intros Hsame. unfold splitA3ToA4, bind, await.
  destruct (load file) as [pages|e]; [|reflexivity].
  destruct (embedFont Helvetica) as [font|e]; [|reflexivity].
  rewrite (@forLoop_ignores_merge o1 o2 font _ pages Hsame).
  destruct Hsame as (_ & _ & _ & _ & _ & -> & _). reflexivity.
Qed.

Lemma mergeToSingleFile_is_not_read_witness :
  @splitA3ToA4 (exampleLib [a3Landscape; a3Portrait]) [] exampleOptions []
  = @splitA3ToA4 (exampleLib [a3Landscape; a3Portrait]) []
      {| orientation := Auto; splitRatio := 0.5; evenSplitRatio := Some 0.3;
         useDualRatios := true; mergeToSingleFile := false;
         enablePageNumbering := true; startingPageNumber := 5;
         numberingStartFromPageIndex := 0; numberingSide := Both |} [].
Proof.
  apply (@mergeToSingleFile_is_not_read (exampleLib [a3Landscape; a3Portrait])).
  repeat split.
Defined.

(* ------------------------------------------------------------------ *)
(** ** Progress *)

Section ProgressFacts.

Local Open Scope nat_scope.

Lemma progressValue_percent (k n : nat) : progressValue k n = percent (k + 1) n.
Proof. reflexivity. Qed.

Lemma inject_nat_pos (n : nat) : 0 < n -> (0 < inject_Z (Z.of_nat n))%Q.
Proof. intros H. change 0%Q with (inject_Z 0). rewrite <- Zlt_Qlt. lia. Qed.

Lemma percent_lt (j k n : nat) :
  0 < n -> j < k -> (percent j n < percent k n)%Q.
Proof.
  intros Hn Hjk. unfold percent, Qdiv.
  apply Qmult_lt_compat_r; [reflexivity|].
  apply Qmult_lt_compat_r.
  - apply Qinv_lt_0_compat, inject_nat_pos, Hn.
  - rewrite <- Zlt_Qlt. lia.
Qed.

Lemma percent_full (n : nat) : 0 < n -> (percent n n == 100)%Q.
Proof.
  intros Hn. unfold percent. pose proof (inject_nat_pos Hn) as Hpos.
  field. intros H0. rewrite H0 in Hpos. discriminate.
Qed.

Lemma percent_zero (n : nat) : (percent 0 n == 0)%Q.
Proof. unfold percent, Qdiv. cbn [Z.of_nat]. ring. Qed.

Lemma percent_range (k n : nat) :
  0 < k <= n -> (0 < percent k n /\ percent k n <= 100)%Q.
Proof.
  intros [Hk Hkn]. split.
  - rewrite <- (percent_zero n). apply percent_lt; lia.
  - rewrite <- (percent_full (n := n)) by lia.
    destruct (Nat.eq_dec k n) as [->|Hne]; [apply Qle_refl|].
    apply Qlt_le_weak, percent_lt; lia.
Qed.

Lemma firstn_seq (k s n : nat) : firstn k (seq s n) = seq s (Nat.min k n).
Proof.
  revert s n. induction k as [|k IH]; intros s [|n]; cbn; try reflexivity.
  now rewrite IH.
Qed.

Lemma nth_error_map_seq {A} (f : nat -> A) (n j : nat) :
  nth_error (map f (seq 0 n)) j = if j <? n then Some (f j) else None.
Proof.
  rewrite nth_error_map, nth_error_seq. now destruct (j <? n).
Qed.

End ProgressFacts.

(** C6: on a document of [n >= 1] pages that parses (and with the font
    embedded), the callback is called [n] times; the [k]-th call
    carries [(k / n) * 100]; each call lies in [0, 100], each is
    strictly above the one before, and the last one is 100.  The [k]-th
    call is made in the turn of the [k]-th source page: after [k] turns
    the loop has appended [2k] pages and has made exactly the first [k]
    calls. *)
Theorem progress_once_per_page
    (lib : PDFLib) (file : list Byte.byte) (options : SplitOptions)
    (pages : list Size) (font : PDFFont) :
  load file = Resolved pages ->
  embedFont Helvetica = Resolved font ->
  (1 <= List.length pages)%nat ->
  let n := List.length pages in
  let calls := snd (run (splitA3ToA4 file options)) in
  List.length calls = n
  /\ (forall k : nat, (1 <= k <= n)%nat ->
        nth_error calls (k - 1) = Some (percent k n))
  /\ (forall (j k : nat) (vj vk : Q),
        (j < k)%nat -> nth_error calls j = Some vj ->
        nth_error calls k = Some vk -> vj < vk)
  /\ (forall v : Q, In v calls -> 0 <= v /\ v <= 100)
  /\ last calls 0 == 100
  /\ (forall k : nat, (k <= n)%nat ->
        exists st : LoopState,
          forLoop options font n (firstn k pages)
            {| i := 0; pageNumberCounter := startingPageNumber options;
               outPdf := [] |} []
          = (Resolved st, firstn k calls)
          /\ i st = k
          /\ List.length (outPdf st) = (2 * k)%nat
          /\ List.length (firstn k calls) = k).
Proof.
  intros Hload Hfont Hn. cbv zeta.
  rewrite (splitA3ToA4_unfolded options file Hload Hfont). cbn [snd].
  remember (List.length pages) as n eqn:En.
  assert (Hnth : forall j, nth_error
            (map (fun k => progressValue k n) (seq 0 n)) j
            = if (j <? n)%nat then Some (percent (j + 1) n) else None).
  { intros j. now rewrite nth_error_map_seq. }
  repeat apply conj.
  - now rewrite length_map, length_seq.
  - intros k Hk. rewrite Hnth.
    destruct (Nat.ltb_spec (k - 1) n) as [_|]; [|lia].
    now replace (k - 1 + 1)%nat with k by lia.
  - intros j k vj vk Hjk Hj Hk. rewrite Hnth in Hj, Hk.
    destruct (Nat.ltb_spec j n); [|discriminate].
    destruct (Nat.ltb_spec k n); [|discriminate].
    injection Hj as <-. injection Hk as <-. apply percent_lt; lia.
  - intros v Hv. apply In_nth_error in Hv as [j Hj]. rewrite Hnth in Hj.
    destruct (Nat.ltb_spec j n); [|discriminate]. injection Hj as <-.
    destruct (@percent_range (j + 1) n) as [H0 H100]; [lia|].
    split; [apply Qlt_le_weak, H0 | exact H100].
  - clear Hnth En. destruct n as [|m]; [lia|].
    rewrite seq_S, map_app. cbn [map]. rewrite last_last.
    rewrite progressValue_percent. replace (0 + m + 1)%nat with (S m) by lia.
    apply percent_full. lia.
  - intros k Hk. rewrite forLoop_unfolded. cbn [i pageNumberCounter outPdf].
    assert (Hlen : List.length (firstn k pages) = k).
    { rewrite length_firstn, <- En. lia. }
    rewrite Hlen.
    eexists. split; [|repeat apply conj].
    + f_equal. cbn [app]. rewrite firstn_map, firstn_seq.
      now replace (Nat.min k n) with k by lia.
    + cbn [i]. lia.
    + cbn [outPdf app]. rewrite pagesFrom_length, Hlen. reflexivity.
    + rewrite length_firstn, length_map, length_seq. lia.
Qed.

Lemma progress_once_per_page_witness :
  let n := 3%nat in
  let calls :=
    snd (run (@splitA3ToA4 (exampleLib [a3Landscape; a3Portrait; a3Landscape])
                [] exampleOptions)) in
  List.length calls = n
  /\ (forall k : nat, (1 <= k <= n)%nat ->
        nth_error calls (k - 1) = Some (percent k n))
  /\ (forall (j k : nat) (vj vk : Q),
        (j < k)%nat -> nth_error calls j = Some vj ->
        nth_error calls k = Some vk -> vj < vk)
  /\ (forall v : Q, In v calls -> 0 <= v /\ v <= 100)
  /\ last calls 0 == 100
  /\ (forall k : nat, (k <= n)%nat ->
        exists st : LoopState,
          forLoop exampleOptions exampleFont n
            (firstn k [a3Landscape; a3Portrait; a3Landscape])
            {| i := 0; pageNumberCounter := startingPageNumber exampleOptions;
               outPdf := [] |} []
          = (Resolved st, firstn k calls)
          /\ i st = k
          /\ List.length (outPdf st) = (2 * k)%nat
          /\ List.length (firstn k calls) = k).
Proof.
  apply (@progress_once_per_page
           (exampleLib [a3Landscape; a3Portrait; a3Landscape]) []
           exampleOptions [a3Landscape; a3Portrait; a3Landscape] exampleFont);
    [reflexivity | reflexivity | cbn; lia].
Defined.

(* ------------------------------------------------------------------ *)
(** ** Crop windows *)

(** C2: for source page [k] of size [w] by [h] and active ratio [r],
    the split is vertical exactly when the orientation is 'vertical',
    or 'auto' with [w > h]; a vertical split sets the crop box of the
    first copy to [0, 0, w*r, h] and that of the second to
    [w*r, 0, w*(1-r), h]; a horizontal split sets them to
    [0, h*(1-r), w, h*r] and [0, 0, w, h*(1-r)]. *)
Theorem crop_windows_of_the_two_copies
    (lib : PDFLib) (file : list Byte.byte) (options : SplitOptions)
    (pages : list Size) (font : PDFFont) (k : nat) (sz : Size) :
  load file = Resolved pages ->
  embedFont Helvetica = Resolved font ->
  nth_error pages k = Some sz ->
  let w := width sz in
  let h := height sz in
  let r := currentRatio options k in
  (useVerticalSplit options sz = true
   <-> orientation options = Vertical
       \/ (orientation options = Auto /\ h < w))
  /\ exists (out : list PDFPage) (page1 page2 : PDFPage)
            (window1 window2 : Rectangle),
       fst (run (splitA3ToA4 file options)) = Resolved out
       /\ nth_error out (2 * k) = Some page1
       /\ nth_error out (2 * k + 1) = Some page2
       /\ cropBox page1 = Some window1
       /\ cropBox page2 = Some window2
       /\ if useVerticalSplit options sz
          then Rectangle_eq window1 (rectangle 0 0 (w * r) h)
               /\ Rectangle_eq window2 (rectangle (w * r) 0 (w * (1 - r)) h)
          else Rectangle_eq window1 (rectangle 0 (h * (1 - r)) w (h * r))
               /\ Rectangle_eq window2 (rectangle 0 0 w (h * (1 - r))).
Proof.
  intros Hload Hfont Hk. cbv zeta. split; [apply useVerticalSplit_true|].
  destruct (@output_pages_of_source_page lib file options pages font k sz
              Hload Hfont Hk) as (out & Hout & H1 & H2).
  destruct (splitPage_cropBox options font k sz
              (counterFrom options font 0 (startingPageNumber options) k))
    as [C1 C2].
  exists out. do 4 eexists.
  split; [exact Hout|]. split; [exact H1|]. split; [exact H2|].
  split; [exact C1|]. split; [exact C2|].
  unfold cropRectangles, setCropBoxes, Rectangle_eq, rectangle.
  destruct (useVerticalSplit options sz); cbn; repeat split;
    try reflexivity; ring.
Qed.

Lemma crop_windows_of_the_two_copies_witness :
  let w := width a3Portrait in
  let h := height a3Portrait in
  let r := currentRatio exampleOptions 1 in
  (useVerticalSplit exampleOptions a3Portrait = true
   <-> orientation exampleOptions = Vertical
       \/ (orientation exampleOptions = Auto /\ h < w))
  /\ exists (out : list PDFPage) (page1 page2 : PDFPage)
            (window1 window2 : Rectangle),
       fst (run (@splitA3ToA4 (exampleLib [a3Landscape; a3Portrait]) []
                   exampleOptions)) = Resolved out
       /\ nth_error out (2 * 1) = Some page1
       /\ nth_error out (2 * 1 + 1) = Some page2
       /\ cropBox page1 = Some window1
       /\ cropBox page2 = Some window2
       /\ if useVerticalSplit exampleOptions a3Portrait
          then Rectangle_eq window1 (rectangle 0 0 (w * r) h)
               /\ Rectangle_eq window2 (rectangle (w * r) 0 (w * (1 - r)) h)
          else Rectangle_eq window1 (rectangle 0 (h * (1 - r)) w (h * r))
               /\ Rectangle_eq window2 (rectangle 0 0 w (h * (1 - r))).
Proof.
  apply (@crop_windows_of_the_two_copies
           (exampleLib [a3Landscape; a3Portrait]) [] exampleOptions
           [a3Landscape; a3Portrait] exampleFont 1 a3Portrait); reflexivity.
Defined.

(* ------------------------------------------------------------------ *)
(** ** The active ratio *)

Lemma takesEvenRatio_dec (options : SplitOptions) (i : nat) :
  {takesEvenRatio options i} + {~ takesEvenRatio options i}.
Proof.
  unfold takesEvenRatio.
  destruct (useDualRatios options);
    [|right; intros (H & _); discriminate].
  destruct (Nat.eq_dec (i mod 2) 1) as [Hi|Hi];
    [|right; intros (_ & H & _); contradiction].
  destruct (evenSplitRatio options) as [even|];
    [|right; intros (_ & _ & e & H); discriminate].
  left. repeat split; [assumption | now exists even].
Qed.

(** C3: for the source page at zero-based index [i], the active ratio
    is [evenSplitRatio] when [useDualRatios] is set, [i mod 2 = 1] and
    [evenSplitRatio] is defined, and [splitRatio] otherwise; so when the
    two ratios differ, the active ratio is [evenSplitRatio] if and only
    if the three conditions hold.  With dual ratios on, [splitRatio]
    0.5 and [evenSplitRatio] 0.3, the page at index 1 gets 0.3. *)
Theorem active_ratio_selection (options : SplitOptions) (i : nat) :
  (takesEvenRatio options i ->
   evenSplitRatio options = Some (currentRatio options i))
  /\ (~ takesEvenRatio options i ->
      currentRatio options i = splitRatio options)
  /\ (forall even : Q,
        evenSplitRatio options = Some even ->
        even <> splitRatio options ->
        (currentRatio options i = even <-> takesEvenRatio options i))
  /\ (useDualRatios options = true ->
      splitRatio options = 0.5 ->
      evenSplitRatio options = Some 0.3 ->
      currentRatio options 1 = 0.3).
Proof.
  assert (Hyes : takesEvenRatio options i ->
                 evenSplitRatio options = Some (currentRatio options i)).
  { intros (Hd & Hi & even & He). unfold currentRatio, isEvenPage.
    now rewrite Hd, Hi, He. }
  assert (Hno : ~ takesEvenRatio options i ->
                currentRatio options i = splitRatio options).
  { intros Hn. unfold currentRatio, isEvenPage.
    destruct (useDualRatios options) eqn:Hd; [|reflexivity].
    destruct (Nat.eqb_spec (i mod 2) 1) as [Hi|Hi]; [|reflexivity].
    destruct (evenSplitRatio options) as [even|] eqn:He; [|reflexivity].
    exfalso. apply Hn. split; [exact Hd|]. split; [exact Hi|].
    exists even. first [exact He | reflexivity]. }
  repeat apply conj; [exact Hyes | exact Hno | |].
  - intros even He Hne. split.
    + intros Hcur. destruct (takesEvenRatio_dec options i) as [H|H]; [exact H|].
      rewrite (Hno H) in Hcur. now elim Hne.
    + intros H. apply Hyes in H. rewrite He in H. now injection H.
  - intros Hd _ He. unfold currentRatio. now rewrite Hd, He.
Qed.

Lemma active_ratio_selection_witness :
  evenSplitRatio exampleOptions = Some (currentRatio exampleOptions 1)
  /\ currentRatio exampleOptions 2 = splitRatio exampleOptions
  /\ (currentRatio exampleOptions 1 = 0.3 <-> takesEvenRatio exampleOptions 1)
  /\ currentRatio exampleOptions 1 = 0.3.
Proof.
  assert (Hodd : takesEvenRatio exampleOptions 1).
  { repeat split. now exists 0.3. }
  assert (Heven : ~ takesEvenRatio exampleOptions 2).
  { intros (_ & H & _). discriminate. }
  split; [|split; [|split]].
  - exact (proj1 (active_ratio_selection exampleOptions 1) Hodd).
  - exact (proj1 (proj2 (active_ratio_selection exampleOptions 2)) Heven).
  - apply (proj1 (proj2 (proj2 (active_ratio_selection exampleOptions 1))));
      [reflexivity | discriminate].
  - apply (proj2 (proj2 (proj2 (active_ratio_selection exampleOptions 1))));
      reflexivity.
Defined.

(* ------------------------------------------------------------------ *)
(** ** The two windows partition the page *)

Lemma cropRectangles_partition (vertical : bool) (ratio : Q) (sz : Size)
    (px py : Q) :
  0 < ratio -> ratio < 1 ->
  let '(window1, window2) := cropRectangles vertical ratio sz in
  let page := rectangle 0 0 (width sz) (height sz) in
  (inside px py page <-> inside px py window1 \/ inside px py window2)
  /\ ~ (inside px py window1 /\ inside px py window2)
  /\ area window1 + area window2 == area page.
Proof.
  intros H0 H1. destruct sz as [w h].
  unfold cropRectangles, setCropBoxes, inside, area, rectangle.
  destruct vertical; cbn.
  - repeat apply conj.
    + intros (Ha & Hb & Hc & Hd).
      destruct (Qlt_le_dec px (w * ratio)) as [Hlt|Hge].
      * left. repeat split; try assumption; lra.
      * right. repeat split; try assumption; lra.
    + intros [(Ha & Hb & Hc & Hd)|(Ha & Hb & Hc & Hd)];
        repeat split; try assumption; try lra; nra.
    + intros [(Ha & Hb & Hc & Hd) (Ha' & Hb' & Hc' & Hd')]. lra.
    + ring.
  - repeat apply conj.
    + intros (Ha & Hb & Hc & Hd).
      destruct (Qlt_le_dec py (h * (1 - ratio))) as [Hlt|Hge].
      * right. repeat split; try assumption; lra.
      * left. repeat split; try assumption; lra.
    + intros [(Ha & Hb & Hc & Hd)|(Ha & Hb & Hc & Hd)];
        repeat split; try assumption; try lra; nra.
    + intros [(Ha & Hb & Hc & Hd) (Ha' & Hb' & Hc' & Hd')]. lra.
    + ring.
Qed.

(** C9: for a source page [k] whose active ratio lies strictly between
    0 and 1, every point of the page [0, 0, w, h] lies in the crop
    window of exactly one of the two output pages and the windows
    contain nothing else: the two windows are disjoint and together
    cover the page (and their areas add up to the page's). *)
Theorem crop_windows_partition_the_page
    (lib : PDFLib) (file : list Byte.byte) (options : SplitOptions)
    (pages : list Size) (font : PDFFont) (k : nat) (sz : Size) :
  load file = Resolved pages ->
  embedFont Helvetica = Resolved font ->
  nth_error pages k = Some sz ->
  0 < currentRatio options k ->
  currentRatio options k < 1 ->
  exists (out : list PDFPage) (page1 page2 : PDFPage),
    fst (run (splitA3ToA4 file options)) = Resolved out
    /\ nth_error out (2 * k) = Some page1
    /\ nth_error out (2 * k + 1) = Some page2
    /\ let window1 := getCropBox page1 in
       let window2 := getCropBox page2 in
       let page := rectangle 0 0 (width sz) (height sz) in
       (forall px py : Q,
          (inside px py page <-> inside px py window1 \/ inside px py window2)
          /\ ~ (inside px py window1 /\ inside px py window2))
       /\ area window1 + area window2 == area page.
Proof.
  intros Hload Hfont Hk H0 H1.
  destruct (@output_pages_of_source_page lib file options pages font k sz
              Hload Hfont Hk) as (out & Hout & Hp1 & Hp2).
  destruct (splitPage_frame options font k sz
              (counterFrom options font 0 (startingPageNumber options) k))
    as (_ & _ & _ & _ & Hcrop).
  exists out. do 2 eexists.
  split; [exact Hout|]. split; [exact Hp1|]. split; [exact Hp2|].
  cbv zeta.
  pose proof (fun px py =>
    @cropRectangles_partition (useVerticalSplit options sz)
      (currentRatio options k) sz px py H0 H1) as Hpart.
  rewrite <- Hcrop in Hpart. split.
  - intros px py. destruct (Hpart px py) as (Ha & Hb & _). now split.
  - exact (proj2 (proj2 (Hpart 0 0))).
Qed.

Lemma crop_windows_partition_the_page_witness :
  exists (out : list PDFPage) (page1 page2 : PDFPage),
    fst (run (@splitA3ToA4 (exampleLib [a3Landscape; a3Portrait]) []
                exampleOptions)) = Resolved out
    /\ nth_error out (2 * 1) = Some page1
    /\ nth_error out (2 * 1 + 1) = Some page2
    /\ let window1 := getCropBox page1 in
       let window2 := getCropBox page2 in
       let page := rectangle 0 0 (width a3Portrait) (height a3Portrait) in
       (forall px py : Q,
          (inside px py page <-> inside px py window1 \/ inside px py window2)
          /\ ~ (inside px py window1 /\ inside px py window2))
       /\ area window1 + area window2 == area page.
Proof.
  apply (@crop_windows_partition_the_page
           (exampleLib [a3Landscape; a3Portrait]) [] exampleOptions
           [a3Landscape; a3Portrait] exampleFont 1 a3Portrait);
    reflexivity.
Defined.

(* ------------------------------------------------------------------ *)
(** ** Page numbers *)

Section NumberingFacts.

Variable options : SplitOptions.
Variable font : PDFFont.
Local Open Scope nat_scope.

Lemma consecutive_app (c : Z) (a b : nat) :
  consecutive c (a + b)
  = consecutive c a ++ consecutive (c + Z.of_nat a) b.
Proof.
  unfold consecutive. rewrite seq_app, map_app. f_equal. cbn [Nat.add].
  assert (H : forall s,
             map (fun j => (c + Z.of_nat j)%Z) (seq (a + s) b)
             = map (fun j => (c + Z.of_nat a + Z.of_nat j)%Z) (seq s b)).
  { induction b as [|b IH]; intros s; cbn [seq map]; [reflexivity|].
    f_equal; [lia|]. rewrite <- IH. now rewrite Nat.add_succ_r. }
  specialize (H 0). now rewrite Nat.add_0_r in H.
Qed.

Lemma textsOn_first (i : nat) (sz : Size) (c : Z) :
  textsOn (fst (fst (splitPage options font i sz c)))
  = if stampsFirst options i then [template c] else [].
Proof.
  rewrite splitPage_first. unfold stampsFirst. cbv beta.
  pose proof (croppedCopies_frame options i sz) as H.
  destruct (croppedCopies options i sz) as [p1 p2].
  destruct H as (_ & _ & _ & _ & H1 & _).
  destruct (_ && _); unfold textsOn; cbn; rewrite H1; reflexivity.
Qed.

Lemma textsOn_second (i : nat) (sz : Size) (c : Z) :
  textsOn (snd (fst (splitPage options font i sz c)))
  = if stampsSecond options i
    then [template (if stampsFirst options i then JsNumber.add c 1 else c)]
    else [].
Proof.
  rewrite splitPage_second. unfold stampsSecond, stampsFirst. cbv beta.
  pose proof (croppedCopies_frame options i sz) as H.
  destruct (croppedCopies options i sz) as [p1 p2].
  destruct H as (_ & _ & _ & _ & _ & H2 & _).
  destruct (_ && numbersSecond options); unfold textsOn; cbn; rewrite H2;
    reflexivity.
Qed.

Lemma stampsOn_eq (i : nat) :
  stampsOn options i
  = (Z.b2z (stampsFirst options i) + Z.b2z (stampsSecond options i))%Z.
Proof.
  unfold stampsFirst, stampsSecond. unfold stampsOn.
  now destruct (shouldAddNumberToThisA3Page options i).
Qed.

(** The texts of the loop, turn by turn. *)
Lemma stampedTexts_cons (i : nat) (c : Z) (sz : Size) (rest : list Size) :
  let r := splitPage options font i sz c in
  stampedTexts (pagesFrom options font i c (sz :: rest))
  = (textsOn (fst (fst r)) ++ textsOn (snd (fst r)))
    ++ stampedTexts
         (pagesFrom options font (S i) (nextCounter options font i c) rest).
Proof.
  cbv zeta. cbn [pagesFrom].
  pose proof (splitPage_counter options font i sz c) as Hc.
  destruct (splitPage options font i sz c) as [[page1 page2] c'].
  cbn [fst snd] in Hc |- *. subst c'.
  unfold stampedTexts. cbn [flat_map]. now rewrite app_assoc.
Qed.

(** A turn stamps as many halves as [stampsOn] counts, whatever its
    counter. *)
Lemma length_texts_of_turn (i : nat) (sz : Size) (c : Z) :
  let r := splitPage options font i sz c in
  Z.of_nat (List.length (textsOn (fst (fst r)) ++ textsOn (snd (fst r))))
  = stampsOn options i.
Proof.
  cbv zeta. rewrite textsOn_first, textsOn_second, stampsOn_eq.
  now destruct (stampsFirst options i); destruct (stampsSecond options i).
Qed.

(** The number of texts of the loop, in closed form. *)
Lemma length_stampedTexts (rest : list Size) :
  forall (i : nat) (c : Z),
    Z.of_nat (List.length (stampedTexts (pagesFrom options font i c rest)))
    = (if enablePageNumbering options
       then perPageIncrement (numberingSide options)
            * Z.max 0 (Z.of_nat (i + List.length rest)
                       - Z.max (Z.of_nat i)
                           (numberingStartFromPageIndex options))
       else 0)%Z.
Proof.
  induction rest as [|sz rest' IH]; intros i c.
  - cbn. destruct (enablePageNumbering options); lia.
  - rewrite stampedTexts_cons, length_app, Nat2Z.inj_add.
    rewrite length_texts_of_turn, IH. cbn [List.length].
    unfold stampsOn, shouldAddNumberToThisA3Page, numbersFirst, numbersSecond.
    destruct (enablePageNumbering options); cbn [andb]; [|lia].
    destruct (Z.leb_spec (numberingStartFromPageIndex options) (Z.of_nat i));
      destruct (numberingSide options); cbn [NumberingSide_eqb orb Z.b2z
        perPageIncrement]; lia.
Qed.

(** On safe integers the texts of one turn are the consecutive numbers
    from the counter on, as many as the turn stamps. *)
Lemma texts_of_turn (i : nat) (sz : Size) (c : Z) :
  (- JsNumber.MAX_SAFE_INTEGER <= c)%Z ->
  (c + 2 <= JsNumber.MAX_SAFE_INTEGER)%Z ->
  let r := splitPage options font i sz c in
  textsOn (fst (fst r)) ++ textsOn (snd (fst r))
  = map template (consecutive c (Z.to_nat (stampsOn options i))).
Proof.
  intros Hlo Hhi. cbv zeta.
  rewrite textsOn_first, textsOn_second, stampsOn_eq.
  rewrite add_safe by lia.
  destruct (stampsFirst options i); destruct (stampsSecond options i);
    vm_compute (Z.to_nat _); unfold consecutive;
    cbn -[template Z.add]; rewrite ?Z.add_0_r; reflexivity.
Qed.

(** On safe integers the texts of the whole loop are consecutive
    numbers from the starting counter on, and the counter ends at the
    start plus their number. *)
Lemma stampedTexts_pagesFrom (rest : list Size) :
  forall (i : nat) (c : Z),
    (- JsNumber.MAX_SAFE_INTEGER <= c)%Z ->
    (c + 2 * Z.of_nat (List.length rest) <= JsNumber.MAX_SAFE_INTEGER)%Z ->
    let texts := stampedTexts (pagesFrom options font i c rest) in
    texts = map template (consecutive c (List.length texts))
    /\ counterFrom options font i c (List.length rest)
       = (c + Z.of_nat (List.length texts))%Z.
Proof.
  induction rest as [|sz rest' IH]; intros i c Hlo Hhi; cbv zeta.
  - cbn. split; [reflexivity | lia].
  - cbn [List.length] in Hhi.
    rewrite stampedTexts_cons. cbn [List.length counterFrom].
    rewrite texts_of_turn by lia. rewrite nextCounter_safe by lia.
    pose proof (stampsOn_range options i) as Hr.
    destruct (IH (S i) (c + stampsOn options i)%Z) as [IHt IHc]; [lia|lia|].
    set (a := Z.to_nat (stampsOn options i)) in *.
    set (rec := stampedTexts _) in *.
    rewrite length_app, length_map.
    assert (Ha : List.length (consecutive c a) = a)
      by (unfold consecutive; now rewrite length_map, length_seq).
    rewrite Ha, consecutive_app, map_app. split.
    + f_equal. replace (c + Z.of_nat a)%Z with (c + stampsOn options i)%Z
        by (subst a; lia).
      exact IHt.
    + rewrite IHc. subst a. lia.
Qed.

Lemma firstn_pagesFrom (rest : list Size) :
  forall (i : nat) (c : Z) (k : nat),
    firstn (2 * k) (pagesFrom options font i c rest)
    = pagesFrom options font i c (firstn k rest).
Proof.
  induction rest as [|sz rest' IH]; intros i c k.
  - now rewrite !firstn_nil.
  - destruct k as [|k']; [reflexivity|].
    replace (2 * S k') with (S (S (2 * k'))) by lia.
    cbn [pagesFrom firstn].
    destruct (splitPage options font i sz c) as [[page1 page2] c'].
    cbn [firstn]. now rewrite IH.
Qed.

(** On safe integers the counter at the start of the turn of page [k]
    is the starting number plus the number of halves stamped before. *)
Lemma counter_before_page (pages : list Size) (c : Z) (k : nat) :
  k <= List.length pages ->
  (- JsNumber.MAX_SAFE_INTEGER <= c)%Z ->
  (c + 2 * Z.of_nat (List.length pages) <= JsNumber.MAX_SAFE_INTEGER)%Z ->
  counterFrom options font 0 c k
  = (c + Z.of_nat
           (List.length
              (stampedTexts
                 (firstn (2 * k) (pagesFrom options font 0 c pages)))))%Z.
Proof.
  intros Hk Hlo Hhi. rewrite firstn_pagesFrom.
  assert (Hlen : List.length (firstn k pages) = k)
    by (rewrite length_firstn; lia).
  destruct (@stampedTexts_pagesFrom (firstn k pages) 0 c) as [_ H];
    [exact Hlo | lia |].
  now rewrite Hlen in H.
Qed.

End NumberingFacts.

(** C5, as first stated: "the counter increases by exactly 1 for every
    stamped half", for every starting number.  It fails from 2^53 on:
    the counter is a double, 2^53 + 1 is not one, and both halves of
    the page get the same number. *)
Lemma counter_stalls_at_two_to_the_53 :
  exists out : list PDFPage,
    fst (run (@splitA3ToA4 (exampleLib [a3Landscape]) [] optionsAt2To53))
    = Resolved out
    /\ stampedTexts out
       = ["9007199254740992"; "9007199254740992"]%string
    /\ stampedTexts out
       <> map template
            (consecutive (startingPageNumber optionsAt2To53)
               (List.length (stampedTexts out))).
Proof.
  eexists. split; [reflexivity|]. split; [reflexivity|].
  vm_compute. discriminate.
Qed.

(** C5, amended: as long as the numbering stays within the safe
    integers (the starting number, twice the page count and their sum
    are at most 2^53 - 1 in magnitude), the texts stamped on the
    output, read in output order, are the consecutive integers that
    start at [startingPageNumber]: each stamped half takes the next one,
    none is skipped or repeated.  The first copy of source page [k] is
    stamped exactly when numbering is enabled,
    [k >= numberingStartFromPageIndex] and the side is 'both' or
    'first'; the second copy exactly when numbering is enabled,
    [k >= numberingStartFromPageIndex] and the side is 'both' or
    'second'; the first copy takes the number reached after all earlier
    stamps and the second copy the one after it.  Starting at 5 from
    page 0 on both sides of 3 source pages, the stamps are 5, 6, 7, 8,
    9, 10. *)
Theorem page_number_counter
    (lib : PDFLib) (file : list Byte.byte) (options : SplitOptions)
    (pages : list Size) (font : PDFFont) :
  load file = Resolved pages ->
  embedFont Helvetica = Resolved font ->
  safeNumbering (startingPageNumber options) (Z.of_nat (List.length pages)) ->
  exists out : list PDFPage,
    fst (run (splitA3ToA4 file options)) = Resolved out
    /\ stampedTexts out
       = map template
           (consecutive (startingPageNumber options)
              (List.length (stampedTexts out)))
    /\ (forall (k : nat) (sz : Size),
          nth_error pages k = Some sz ->
          exists page1 page2 : PDFPage,
            nth_error out (2 * k) = Some page1
            /\ nth_error out (2 * k + 1) = Some page2
            /\ let numbered :=
                 enablePageNumbering options
                 && (numberingStartFromPageIndex options <=? Z.of_nat k)%Z in
               let first :=
                 match numberingSide options with
                 | Both | First => true
                 | Second => false
                 end in
               let second :=
                 match numberingSide options with
                 | Both | Second => true
                 | First => false
                 end in
               let c :=
                 (startingPageNumber options
                  + Z.of_nat (List.length
                                (stampedTexts (firstn (2 * k) out))))%Z in
               textsOn page1
               = (if numbered && first then [template c] else [])
               /\ textsOn page2
                  = (if numbered && second
                     then [template (if numbered && first
                                     then c + 1 else c)%Z]
                     else []))
    /\ (enablePageNumbering options = true ->
        startingPageNumber options = 5%Z ->
        numberingStartFromPageIndex options = 0%Z ->
        numberingSide options = Both ->
        List.length pages = 3%nat ->
        stampedTexts out = ["5"; "6"; "7"; "8"; "9"; "10"]%string).
Proof.
  intros Hload Hfont (Hlo & Hn & Hhi).
  rewrite (splitA3ToA4_unfolded options file Hload Hfont). cbn [fst].
  assert (Hout : exists out,
             save (pagesFrom options font 0 (startingPageNumber options) pages)
             = out
             /\ stampedTexts out
                = stampedTexts
                    (pagesFrom options font 0 (startingPageNumber options)
                       pages)
             /\ (pages <> [] ->
                 out = pagesFrom options font 0 (startingPageNumber options)
                         pages)).
  { eexists. split; [reflexivity|].
    destruct pages as [|sz rest]; [split; [reflexivity | easy]|].
    rewrite save_pagesFrom by easy. split; reflexivity. }
  destruct Hout as (out & -> & Htexts & Hsame).
  exists out. split; [reflexivity|].
  destruct (@stampedTexts_pagesFrom options font pages 0
              (startingPageNumber options) Hlo Hhi) as [Ht _].
  split; [|split].
  - rewrite Htexts. exact Ht.
  - intros k sz Hk.
    rewrite Hsame by (intros ->; destruct k; discriminate).
    destruct (pagesFrom_nth options font pages 0 (startingPageNumber options)
                k Hk) as [H1 H2].
    cbn [Nat.add] in H1, H2.
    do 2 eexists. split; [exact H1|]. split; [exact H2|]. cbv zeta.
    assert (Hlen : (k < List.length pages)%nat).
    { apply nth_error_Some. now rewrite Hk. }
    rewrite <- (@counter_before_page options font pages
                  (startingPageNumber options) k
                  (Nat.lt_le_incl _ _ Hlen) Hlo Hhi).
    assert (Hc : (- JsNumber.MAX_SAFE_INTEGER
                  <= counterFrom options font 0 (startingPageNumber options) k
                  /\ counterFrom options font 0 (startingPageNumber options) k
                     + 2 <= JsNumber.MAX_SAFE_INTEGER)%Z).
    { rewrite (@counter_before_page options font pages
                 (startingPageNumber options) k
                 (Nat.lt_le_incl _ _ Hlen) Hlo Hhi).
      pose proof (length_stampedTexts options font (firstn k pages) 0
                    (startingPageNumber options)) as Hc.
      rewrite <- firstn_pagesFrom in Hc.
      rewrite length_firstn in Hc.
      replace (Nat.min k (List.length pages)) with k in Hc by lia.
      cbn [Nat.add Z.of_nat] in Hc. rewrite Hc.
      destruct (enablePageNumbering options);
        destruct (numberingSide options); cbn [perPageIncrement]; lia. }
    rewrite textsOn_first, textsOn_second.
    rewrite add_safe by lia.
    unfold stampsFirst, stampsSecond, shouldAddNumberToThisA3Page,
      numbersFirst, numbersSecond.
    destruct (enablePageNumbering options);
      destruct (numberingStartFromPageIndex options <=? Z.of_nat k)%Z;
      destruct (numberingSide options); cbn; split; reflexivity.
  - intros Hen Hstart Hidx Hside Hlen. rewrite Htexts, Ht.
    pose proof (length_stampedTexts options font pages 0
                  (startingPageNumber options)) as Hcount.
    rewrite Hen, Hidx, Hside, Hlen in Hcount. cbn in Hcount.
    apply (f_equal Z.to_nat) in Hcount. rewrite Nat2Z.id in Hcount.
    rewrite Hcount, Hstart. reflexivity.
Qed.

Lemma page_number_counter_witness :
  exists out : list PDFPage,
    fst (run (@splitA3ToA4
                (exampleLib [a3Landscape; a3Portrait; a3Landscape]) []
                exampleOptions)) = Resolved out
    /\ stampedTexts out = ["5"; "6"; "7"; "8"; "9"; "10"]%string.
Proof.
  destruct (@page_number_counter
              (exampleLib [a3Landscape; a3Portrait; a3Landscape]) []
              exampleOptions [a3Landscape; a3Portrait; a3Landscape]
              exampleFont eq_refl eq_refl)
    as (out & Hout & _ & _ & Hex).
  - repeat split; vm_compute; discriminate.
  - exists out. split; [exact Hout|].
    apply Hex; reflexivity.
Defined.

(* ------------------------------------------------------------------ *)
(** ** The preview agrees with the service *)

(** On safe integers the counter after [k] turns, in closed form. *)
Lemma counterFrom_closed_form (options : SplitOptions) (font : PDFFont)
    (k : nat) :
  forall (i : nat) (c : Z),
    (- JsNumber.MAX_SAFE_INTEGER <= c)%Z ->
    (c + 2 * Z.of_nat k <= JsNumber.MAX_SAFE_INTEGER)%Z ->
    counterFrom options font i c k
    = (c + (if enablePageNumbering options
            then perPageIncrement (numberingSide options)
                 * Z.max 0 (Z.of_nat (i + k)
                            - Z.max (Z.of_nat i)
                                (numberingStartFromPageIndex options))
            else 0))%Z.
Proof.
  induction k as [|k IH]; intros i c Hlo Hhi; cbn [counterFrom].
  - destruct (enablePageNumbering options); lia.
  - rewrite nextCounter_safe by lia.
    pose proof (stampsOn_range options i) as Hr.
    rewrite IH by lia.
    unfold stampsOn, shouldAddNumberToThisA3Page, numbersFirst, numbersSecond.
    destruct (enablePageNumbering options); cbn [andb]; [|lia].
    destruct (Z.leb_spec (numberingStartFromPageIndex options) (Z.of_nat i));
      destruct (numberingSide options); cbn [NumberingSide_eqb orb Z.b2z
        perPageIncrement]; lia.
Qed.

(** On safe integers the labels of the preview, in exact arithmetic:
    none on a page that is not numbered, and otherwise consecutive
    numbers from [startingPageNumber + (p - start index) *
    perPageIncrement] on, [p] the index of the current page. *)
Lemma labels_on_safe_integers (st : App.State) (pageCount : Z) :
  (1 <= App.currentPage st <= pageCount)%Z ->
  (0 <= App.numberingStartFromPageIndex st)%Z ->
  safeNumbering (App.startingPageNumber st) pageCount ->
  App.getSimulatedPageNumbers st
  = if negb (App.enablePageNumbering st)
       || (App.currentPage st - 1 <? App.numberingStartFromPageIndex st)%Z
    then (None, None)
    else labelsFrom (App.numberingSide st)
           (App.startingPageNumber st
            + (App.currentPage st - 1 - App.numberingStartFromPageIndex st)
              * perPageIncrement (App.numberingSide st))%Z.
Proof.
  intros Hcp Hidx (Hlo & Hn & Hhi). unfold App.getSimulatedPageNumbers.
  destruct (negb (App.enablePageNumbering st)); [reflexivity|]. cbn [orb].
  destruct (Z.ltb_spec (App.currentPage st - 1)
              (App.numberingStartFromPageIndex st)) as [Hlt|Hge];
    [reflexivity|].
  cbv zeta. rewrite sub_safe by lia.
  rewrite Z.max_r by lia.
  set (d := (App.currentPage st - 1 - App.numberingStartFromPageIndex st)%Z)
    in *.
  assert (Hd : (0 <= d <= pageCount - 1)%Z) by (subst d; lia).
  destruct (App.numberingSide st);
    cbn [NumberingSide_eqb orb labelsFrom perPageIncrement];
    rewrite mul_safe by lia; rewrite add_safe by lia;
    rewrite ?add_safe by lia; reflexivity.
Qed.

Lemma isCurrentPageEven_isEvenPage (st : App.State) (p : nat) :
  App.currentPage st = (Z.of_nat p + 1)%Z ->
  App.isCurrentPageEven st = isEvenPage p.
Proof.
  intros Hp. unfold App.isCurrentPageEven, isEvenPage. rewrite Hp.
  rewrite Z.rem_mod_nonneg by lia.
  pose proof (Nat.mod_upper_bound p 2 ltac:(lia)) as Hb.
  pose proof (Nat.div_mod_eq p 2) as Hd.
  destruct (Nat.eqb_spec (p mod 2) 1) as [H1|H1];
    [apply Z.eqb_eq | apply Z.eqb_neq];
    pose proof (Z.mod_pos_bound (Z.of_nat p + 1) 2 ltac:(lia));
    pose proof (Z.div_mod (Z.of_nat p + 1) 2 ltac:(lia)); lia.
Qed.

(** C4, as first stated: "for every configuration the preview yields
    the same numbers as the loop".  It fails once the numbers leave the
    safe integers.  After the user has typed 2^53 as the starting page
    number, on page 2 of a two-page file, the loop stamps
    9007199254740992 on both halves (its counter cannot advance), while
    the preview, which adds 2 in one step, shows 9007199254740994 and
    9007199254740996. *)
Lemma preview_and_service_part_at_two_to_the_53 :
  let st := stateAt2To53 in
  App.previewInfo st = Some a3Landscape
  /\ App.currentPage st = 2%Z
  /\ App.numberingStartFromPageIndex st = 0%Z
  /\ App.getSimulatedPageNumbers st
     = (Some 9007199254740994%Z, Some 9007199254740996%Z)
  /\ exists (out : list PDFPage) (page1 page2 : PDFPage),
       fst (run (@splitA3ToA4 (exampleLib [a3Landscape; a3Landscape]) []
                   (App.options st))) = Resolved out
       /\ nth_error out (2 * 1) = Some page1
       /\ nth_error out (2 * 1 + 1) = Some page2
       /\ textsOn page1 = ["9007199254740992"]%string
       /\ textsOn page2 = ["9007199254740992"]%string
       /\ textsOn page1 <> labelTexts (fst (App.getSimulatedPageNumbers st))
       /\ textsOn page2 <> labelTexts (snd (App.getSimulatedPageNumbers st)).
Proof.
  cbv zeta. do 4 (split; [reflexivity|]).
  do 3 eexists. split; [reflexivity|].
  split; [reflexivity|]. split; [reflexivity|].
  split; [reflexivity|]. split; [reflexivity|].
  split; vm_compute; discriminate.
Qed.

(** C4, amended: on a state of the component whose current page is
    source page [p] (so [currentPage = p + 1]), whose preview size is
    the size of that page, whose [numberingStartFromPageIndex] is a
    page index (not negative) and whose numbering stays within the safe
    integers (the starting number, twice the page count and their sum
    are at most 2^53 - 1 in magnitude), the preview and a run of the
    service on the options built from that state agree for page [p]:
    same split axis, same active ratio, hence same crop windows, and
    the labels of the preview are exactly the numbers stamped on the
    two output pages.  The counter the loop has reached when it enters
    page [p] is the closed-form seed [startingPageNumber + max(0, p -
    numberingStartFromPageIndex) * perPageIncrement]. *)
Theorem preview_agrees_with_service
    (lib : PDFLib) (file : list Byte.byte) (st : App.State)
    (pages : list Size) (font : PDFFont) (p : nat) (sz : Size) :
  load file = Resolved pages ->
  embedFont Helvetica = Resolved font ->
  nth_error pages p = Some sz ->
  App.previewInfo st = Some sz ->
  App.currentPage st = (Z.of_nat p + 1)%Z ->
  (0 <= App.numberingStartFromPageIndex st)%Z ->
  safeNumbering (App.startingPageNumber st) (Z.of_nat (List.length pages)) ->
  let options := App.options st in
  App.isVerticalSplit st = useVerticalSplit options sz
  /\ App.currentActiveRatio st = currentRatio options p
  /\ exists (out : list PDFPage) (page1 page2 : PDFPage),
       fst (run (splitA3ToA4 file options)) = Resolved out
       /\ nth_error out (2 * p) = Some page1
       /\ nth_error out (2 * p + 1) = Some page2
       /\ (getCropBox page1, getCropBox page2)
          = cropRectangles (App.isVerticalSplit st)
              (App.currentActiveRatio st) sz
       /\ textsOn page1 = labelTexts (fst (App.getSimulatedPageNumbers st))
       /\ textsOn page2 = labelTexts (snd (App.getSimulatedPageNumbers st))
       /\ (App.enablePageNumbering st = true ->
           (App.startingPageNumber st
            + Z.of_nat (List.length (stampedTexts (firstn (2 * p) out))))%Z
           = (App.startingPageNumber st
              + Z.max 0 (Z.of_nat p - App.numberingStartFromPageIndex st)
                * perPageIncrement (App.numberingSide st))%Z).
Proof.
  intros Hload Hfont Hp Hinfo Hcur Hidx Hsafe options.
  assert (Haxis : App.isVerticalSplit st = useVerticalSplit options sz).
  { unfold App.isVerticalSplit, useVerticalSplit. subst options. cbn.
    now rewrite Hinfo. }
  assert (Hratio : App.currentActiveRatio st = currentRatio options p).
  { unfold App.currentActiveRatio, currentRatio. subst options.
    cbn -[isEvenPage].
    rewrite (isCurrentPageEven_isEvenPage st p Hcur).
    now destruct (App.useDualRatios st && isEvenPage p). }
  split; [exact Haxis|]. split; [exact Hratio|].
  assert (Hlen : (p < List.length pages)%nat).
  { apply nth_error_Some. now rewrite Hp. }
  assert (Hlabels := @labels_on_safe_integers st
                       (Z.of_nat (List.length pages))
                       ltac:(lia) Hidx Hsafe).
  destruct Hsafe as (Hlo & Hn & Hhi).
  assert (Hstart : startingPageNumber options = App.startingPageNumber st)
    by reflexivity.
  pose proof (@counter_before_page options font pages
                (startingPageNumber options) p (Nat.lt_le_incl _ _ Hlen))
    as Hseed.
  rewrite Hstart in Hseed. specialize (Hseed Hlo Hhi).
  pose proof (@counterFrom_closed_form options font p 0
                (App.startingPageNumber st) Hlo ltac:(lia)) as Hclosed.
  cbn [Nat.add] in Hclosed.
  assert (Hen : enablePageNumbering options = App.enablePageNumbering st)
    by reflexivity.
  assert (Hix : numberingStartFromPageIndex options
                = App.numberingStartFromPageIndex st) by reflexivity.
  assert (Hsd : numberingSide options = App.numberingSide st)
    by reflexivity.
  rewrite Hen, Hix, Hsd in Hclosed.
  pose proof (pagesFrom_nth options font pages 0 (startingPageNumber options)
                p Hp) as [H1 H2].
  cbn [Nat.add] in H1, H2. rewrite Hstart in H1, H2.
  rewrite (splitA3ToA4_unfolded options file Hload Hfont). cbn [fst].
  rewrite save_pagesFrom by (intros ->; cbn in Hlen; lia).
  rewrite Hstart.
  do 3 eexists. split; [reflexivity|]. split; [exact H1|]. split; [exact H2|].
  rewrite Hlabels, Hcur.
  replace (Z.of_nat p + 1 - 1)%Z with (Z.of_nat p) by lia.
  split; [|split; [|split]].
  - rewrite Haxis, Hratio. apply splitPage_frame.
  - rewrite textsOn_first, Hclosed.
    unfold stampsFirst, shouldAddNumberToThisA3Page, numbersFirst.
    rewrite Hen, Hix, Hsd.
    destruct (App.enablePageNumbering st); cbn [negb andb orb];
      [|reflexivity].
    destruct (Z.leb_spec (App.numberingStartFromPageIndex st) (Z.of_nat p));
      destruct (Z.ltb_spec (Z.of_nat p) (App.numberingStartFromPageIndex st));
      try lia; [|reflexivity].
    destruct (App.numberingSide st);
      cbn [NumberingSide_eqb orb andb labelsFrom fst labelTexts
           perPageIncrement]; try reflexivity; do 2 f_equal; lia.
  - rewrite textsOn_second, Hclosed.
    unfold stampsFirst, stampsSecond, shouldAddNumberToThisA3Page,
      numbersFirst, numbersSecond.
    rewrite Hen, Hix, Hsd.
    destruct (App.enablePageNumbering st); cbn [negb andb orb];
      [|reflexivity].
    destruct (Z.leb_spec (App.numberingStartFromPageIndex st) (Z.of_nat p));
      destruct (Z.ltb_spec (Z.of_nat p) (App.numberingStartFromPageIndex st));
      try lia; [|reflexivity].
    destruct (App.numberingSide st);
      cbn [NumberingSide_eqb orb andb labelsFrom snd labelTexts
           perPageIncrement]; try reflexivity;
      rewrite ?add_safe by lia; do 2 f_equal; lia.
  - intros Henabled. rewrite <- Hseed, Hclosed, Henabled.
    destruct (App.numberingSide st); cbn [perPageIncrement]; lia.
Qed.

Lemma preview_agrees_with_service_witness :
  let st := exampleState in
  let options := App.options st in
  App.isVerticalSplit st = useVerticalSplit options a3Portrait
  /\ App.currentActiveRatio st = currentRatio options 1
  /\ exists (out : list PDFPage) (page1 page2 : PDFPage),
       fst (run (@splitA3ToA4 (exampleLib [a3Landscape; a3Portrait]) []
                   options)) = Resolved out
       /\ nth_error out (2 * 1) = Some page1
       /\ nth_error out (2 * 1 + 1) = Some page2
       /\ (getCropBox page1, getCropBox page2)
          = cropRectangles (App.isVerticalSplit st)
              (App.currentActiveRatio st) a3Portrait
       /\ textsOn page1 = labelTexts (fst (App.getSimulatedPageNumbers st))
       /\ textsOn page2 = labelTexts (snd (App.getSimulatedPageNumbers st))
       /\ (App.enablePageNumbering st = true ->
           (App.startingPageNumber st
            + Z.of_nat (List.length (stampedTexts (firstn (2 * 1) out))))%Z
           = (App.startingPageNumber st
              + Z.max 0 (Z.of_nat 1 - App.numberingStartFromPageIndex st)
                * perPageIncrement (App.numberingSide st))%Z).
Proof.
  apply (@preview_agrees_with_service
           (exampleLib [a3Landscape; a3Portrait]) [] exampleState
           [a3Landscape; a3Portrait] exampleFont 1 a3Portrait);
    first [reflexivity
          | vm_compute; discriminate
          | repeat split; vm_compute; discriminate].
Defined.

(** The handlers of the component keep [numberingStartFromPageIndex] a
    page index: that hypothesis of the agreement above holds in every
    state the component can reach. *)
Lemma App_state_invariant (events : list App.Event) :
  (0 <= App.numberingStartFromPageIndex (App.after events))%Z.
Proof.
  unfold App.after.
  assert (H : (0 <= App.numberingStartFromPageIndex App.initial)%Z)
    by (cbn; lia).
  revert H. generalize App.initial.
  induction events as [|e events IH]; intros st Hst; [exact Hst|].
  cbn [fold_left]. apply IH.
  destruct st, e; cbn -[Z.max JsNumber.sub] in *; lia.
Qed.

(** Outside those states the closed form of the preview and the loop
    part: with a negative start index the loop numbers from page 0 on,
    while the preview counts [p - numberingStartFromPageIndex] earlier
    pages. *)
Lemma negative_start_index_separates_preview_and_loop :
  let st :=
    {| App.splitMode := Auto; App.splitRatio := 0.5;
       App.evenSplitRatio := 0.5; App.useDualRatios := false;
       App.enablePageNumbering := true; App.startingPageNumber := 1;
       App.numberingStartFromPageIndex := (-1)%Z; App.numberingSide := Both;
       App.previewInfo := Some a3Landscape; App.currentPage := 2;
       App.totalPages := 2 |} in
  App.getSimulatedPageNumbers st = (Some 5%Z, Some 6%Z)
  /\ stampedTexts
       (skipn 2 (pagesFrom (App.options st) exampleFont 0 1
                   [a3Landscape; a3Landscape]))
     = ["3"; "4"]%string.
Proof. split; reflexivity. Qed.

(* ------------------------------------------------------------------ *)
(** ** Where the number is drawn *)

(** Every number the loop draws is centred on the middle of the whole
    source page and sits 15 points above its lower edge, whichever copy
    it is drawn on and wherever that copy's crop window lies. *)
Lemma stamp_is_centred_on_the_uncropped_page
    (options : SplitOptions) (font : PDFFont) (i : nat) (sz : Size) (c : Z)
    (entry : string * DrawTextOptions) :
  let r := splitPage options font i sz c in
  In entry (drawn (fst (fst r))) \/ In entry (drawn (snd (fst r))) ->
  textCenter font entry == width sz / 2 /\ y (snd entry) = 15.
Proof.
  cbv zeta. rewrite splitPage_first, splitPage_second.
  pose proof (croppedCopies_frame options i sz) as H.
  destruct (croppedCopies options i sz) as [p1 p2].
  destruct H as (_ & _ & M1 & M2 & D1 & D2 & _). cbn [fst snd].
  assert (Hdraw : forall (p : PDFPage) (n : Z),
             mediaBox p = sz -> drawn p = [] ->
             In entry (drawn (fst (drawPageNumber font p n))) ->
             textCenter font entry == width sz / 2 /\ y (snd entry) = 15).
  { intros p n Hm Hd Hin. cbn in Hin. rewrite Hd in Hin.
    destruct Hin as [<-|[]]. unfold textCenter, getSize. cbn. rewrite Hm.
    split; [field | reflexivity]. }
  destruct (_ && numbersFirst options); destruct (_ && numbersSecond options);
    intros [Hin|Hin]; rewrite ?D1, ?D2 in Hin; try contradiction;
    eauto.
Qed.

(** The preview places its two labels of a vertical split on the
    middles of the two halves. *)
Lemma preview_labels_are_centred_on_the_halves (st : App.State) (sz : Size) :
  let windows := cropRectangles true (App.currentActiveRatio st) sz in
  App.label1Percent st / 100 * width sz == windowCenter (fst windows)
  /\ App.label2Percent st / 100 * width sz == windowCenter (snd windows).
Proof.
  unfold App.label1Percent, App.label2Percent, windowCenter, cropRectangles.
  cbn. split; field.
Qed.

(** C7, on a one-page landscape document split in the middle with
    numbering on both sides: both numbers are drawn centred on the cut
    line (the middle of the uncropped page), not on the middle of the
    crop window of their copy. *)
Theorem page_number_is_not_centred_in_its_half :
  exists (page1 page2 : PDFPage) (entry1 entry2 : string * DrawTextOptions),
    fst (run (@splitA3ToA4 (exampleLib [a3Landscape]) [] exampleOptions))
    = Resolved [page1; page2]
    /\ drawn page1 = [entry1]
    /\ drawn page2 = [entry2]
    /\ textCenter exampleFont entry1 == 1191 / 2
    /\ windowCenter (getCropBox page1) == 1191 / 4
    /\ textCenter exampleFont entry2 == 1191 / 2
    /\ windowCenter (getCropBox page2) == 1191 * 3 / 4
    /\ ~ textCenter exampleFont entry1 == windowCenter (getCropBox page1)
    /\ ~ textCenter exampleFont entry2 == windowCenter (getCropBox page2).
Proof.
  do 4 eexists. split; [reflexivity|].
  split; [reflexivity|]. split; [reflexivity|].
  repeat split; try (vm_compute; reflexivity); vm_compute; discriminate.
Qed.

(** On a portrait page the split is horizontal, and the number of the
    first (upper) copy is drawn below that copy's crop window. *)
Lemma page_number_of_upper_half_is_outside_its_window :
  exists (page1 page2 : PDFPage) (entry1 : string * DrawTextOptions),
    fst (run (@splitA3ToA4 (exampleLib [a3Portrait]) [] exampleOptions))
    = Resolved [page1; page2]
    /\ drawn page1 = [entry1]
    /\ y (snd entry1) = 15
    /\ ry (getCropBox page1) == 1191 / 2
    /\ y (snd entry1) < ry (getCropBox page1).
Proof.
  do 3 eexists. split; [reflexivity|].
  split; [reflexivity|]. split; [reflexivity|].
  split; vm_compute; reflexivity.
Qed.

(* ================================================================== *)
(** * Further properties of the service *)

(** The three ways a call can end. *)
Lemma splitA3ToA4_cases (lib : PDFLib) (file : list Byte.byte)
    (options : SplitOptions) :
  run (splitA3ToA4 file options)
  = match load file with
    | Rejected e => (Rejected e, [])
    | Resolved pages =>
        match embedFont Helvetica with
        | Rejected e => (Rejected e, [])
        | Resolved font =>
            (Resolved
               (save
                  (pagesFrom options font 0 (startingPageNumber options)
                     pages)),
             map (fun k => progressValue k (List.length pages))
               (seq 0 (List.length pages)))
        end
    end.
Proof.
  destruct (load file) as [pages|e] eqn:Hload.
  - destruct (embedFont Helvetica) as [font|e] eqn:Hfont.
    + exact (splitA3ToA4_unfolded options file Hload Hfont).
    + unfold run, splitA3ToA4, bind, await. now rewrite Hload, Hfont.
  - unfold run, splitA3ToA4, bind, await. now rewrite Hload.
Qed.

(** A property of single output pages holds of every page of the
    output as soon as it holds of the two pages of every turn. *)
Lemma pagesFrom_Forall (options : SplitOptions) (font : PDFFont)
    (P : PDFPage -> Prop) (rest : list Size) :
  (forall (i : nat) (sz : Size) (c : Z),
     In sz rest ->
     P (fst (fst (splitPage options font i sz c)))
     /\ P (snd (fst (splitPage options font i sz c)))) ->
  forall (i : nat) (c : Z), Forall P (pagesFrom options font i c rest).
Proof.
  induction rest as [|sz rest' IH]; intros HP i c; cbn [pagesFrom].
  - constructor.
  - destruct (HP i sz c (or_introl eq_refl)) as [H1 H2].
    destruct (splitPage options font i sz c) as [[page1 page2] c'].
    cbn [fst snd] in H1, H2.
    constructor; [exact H1|]. constructor; [exact H2|].
    apply IH. intros i' sz' c'' Hin. apply HP. now right.
Qed.

(** The page [save] adds to a page-less document carries no text. *)
Lemma stampedTexts_save (pages : list PDFPage) :
  stampedTexts (save pages) = stampedTexts pages.
Proof. now destruct pages. Qed.

Lemma save_Forall (P : PDFPage -> Prop) (pages : list PDFPage) :
  P addPage -> Forall P pages -> Forall P (save pages).
Proof. intros Hblank Hall. destruct pages; [now constructor | exact Hall]. Qed.

(** X1: when the document parses but the font cannot be embedded, the
    call rejects with the embedder's error, and the progress callback
    has not been called. *)
Theorem font_failure_rejects_before_any_progress
    (lib : PDFLib) (file : list Byte.byte) (options : SplitOptions)
    (pages : list Size) (e : Error) :
  load file = Resolved pages ->
  embedFont Helvetica = Rejected e ->
  run (splitA3ToA4 file options) = (Rejected e, []).
Proof.
  intros Hload Hfont. rewrite splitA3ToA4_cases. now rewrite Hload, Hfont.
Qed.

Lemma font_failure_rejects_before_any_progress_witness :
  run (@splitA3ToA4 (fontRejectingLib [a3Landscape; a3Portrait]) []
         exampleOptions)
  = (Rejected FontError, []).
Proof.
  apply (@font_failure_rejects_before_any_progress
           (fontRejectingLib [a3Landscape; a3Portrait]) [] exampleOptions
           [a3Landscape; a3Portrait] FontError); reflexivity.
Defined.

(** X2: a document without pages does not give a document without
    pages: the loop copies nothing, the progress callback is never
    called (no division by the page count takes place), and [save]
    puts one blank page of 595.28 by 841.89 points into the page-less
    output, which is what the call resolves with. *)
Theorem empty_document_gives_one_blank_page
    (lib : PDFLib) (file : list Byte.byte) (options : SplitOptions)
    (font : PDFFont) :
  load file = Resolved [] ->
  embedFont Helvetica = Resolved font ->
  exists page : PDFPage,
    run (splitA3ToA4 file options) = (Resolved [page], [])
    /\ copiedFrom page = None
    /\ mediaBox page = {| width := 595.28; height := 841.89 |}
    /\ cropBox page = None
    /\ drawn page = [].
Proof.
  intros Hload Hfont. rewrite splitA3ToA4_cases. rewrite Hload, Hfont.
  exists addPage. repeat split.
Qed.

Lemma empty_document_gives_one_blank_page_witness :
  exists page : PDFPage,
    run (@splitA3ToA4 (exampleLib []) [] exampleOptions)
    = (Resolved [page], [])
    /\ copiedFrom page = None
    /\ mediaBox page = {| width := 595.28; height := 841.89 |}
    /\ cropBox page = None
    /\ drawn page = [].
Proof.
  apply (@empty_document_gives_one_blank_page (exampleLib []) []
           exampleOptions exampleFont); reflexivity.
Defined.

(** X3: when numbering is disabled, or for a source page before
    [numberingStartFromPageIndex], nothing at all is drawn on either
    output page of that source page. *)
Theorem unnumbered_pages_carry_no_drawing
    (lib : PDFLib) (file : list Byte.byte) (options : SplitOptions)
    (pages : list Size) (font : PDFFont) (k : nat) (sz : Size) :
  load file = Resolved pages ->
  embedFont Helvetica = Resolved font ->
  nth_error pages k = Some sz ->
  enablePageNumbering options = false
  \/ (Z.of_nat k < numberingStartFromPageIndex options)%Z ->
  exists (out : list PDFPage) (page1 page2 : PDFPage),
    fst (run (splitA3ToA4 file options)) = Resolved out
    /\ nth_error out (2 * k) = Some page1
    /\ nth_error out (2 * k + 1) = Some page2
    /\ drawn page1 = [] /\ drawn page2 = [].
Proof.
  intros Hload Hfont Hk Hoff.
  destruct (@output_pages_of_source_page lib file options pages font k sz
              Hload Hfont Hk) as (out & Hout & H1 & H2).
  exists out. do 2 eexists.
  split; [exact Hout|]. split; [exact H1|]. split; [exact H2|].
  assert (Hno : shouldAddNumberToThisA3Page options k = false).
  { unfold shouldAddNumberToThisA3Page.
    destruct Hoff as [->|Hlt]; [reflexivity|].
    apply andb_false_intro2, Z.leb_gt, Hlt. }
  rewrite splitPage_first, splitPage_second, Hno. cbn [andb].
  pose proof (croppedCopies_frame options k sz) as H.
  destruct (croppedCopies options k sz) as [p1 p2].
  destruct H as (_ & _ & _ & _ & D1 & D2 & _). now split.
Qed.

Lemma unnumbered_pages_carry_no_drawing_witness :
  exists (out : list PDFPage) (page1 page2 : PDFPage),
    fst (run (@splitA3ToA4 (exampleLib [a3Landscape; a3Portrait]) []
                {| orientation := Auto; splitRatio := 0.5;
                   evenSplitRatio := None; useDualRatios := false;
                   mergeToSingleFile := true; enablePageNumbering := true;
                   startingPageNumber := 1;
                   numberingStartFromPageIndex := 1;
                   numberingSide := Both |})) = Resolved out
    /\ nth_error out (2 * 0) = Some page1
    /\ nth_error out (2 * 0 + 1) = Some page2
    /\ drawn page1 = [] /\ drawn page2 = [].
Proof.
  apply (@unnumbered_pages_carry_no_drawing
           (exampleLib [a3Landscape; a3Portrait]) [] _
           [a3Landscape; a3Portrait] exampleFont 0 a3Landscape);
    try reflexivity.
  right. reflexivity.
Defined.

(** X4: the number of page numbers a call stamps.  With numbering
    enabled it is the per-page increment (2 for 'both', 1 otherwise)
    times the number of source pages from the start index on, where a
    negative start index counts as 0 and one beyond the last page gives
    no number at all; with numbering disabled it is 0. *)
Theorem number_of_stamps
    (lib : PDFLib) (file : list Byte.byte) (options : SplitOptions)
    (pages : list Size) (font : PDFFont) :
  load file = Resolved pages ->
  embedFont Helvetica = Resolved font ->
  exists out : list PDFPage,
    fst (run (splitA3ToA4 file options)) = Resolved out
    /\ Z.of_nat (List.length (stampedTexts out))
       = if enablePageNumbering options
         then (perPageIncrement (numberingSide options)
               * Z.max 0 (Z.of_nat (List.length pages)
                          - Z.max 0 (numberingStartFromPageIndex options)))%Z
         else 0%Z.
Proof.
  intros Hload Hfont.
  rewrite (splitA3ToA4_unfolded options file Hload Hfont). cbn [fst].
  eexists; split; [reflexivity|].
  rewrite stampedTexts_save, length_stampedTexts. reflexivity.
Qed.

Lemma number_of_stamps_witness :
  exists out : list PDFPage,
    fst (run (@splitA3ToA4
                (exampleLib [a3Landscape; a3Portrait; a3Landscape]) []
                exampleOptions)) = Resolved out
    /\ Z.of_nat (List.length (stampedTexts out)) = 6%Z.
Proof.
  apply (@number_of_stamps
           (exampleLib [a3Landscape; a3Portrait; a3Landscape]) []
           exampleOptions [a3Landscape; a3Portrait; a3Landscape]
           exampleFont); reflexivity.
Defined.

(** X5: every output page carries at most one text, and every text is
    drawn the same way: at size 10, 15 points above the lower edge of
    the page, in the grey [rgb(0.2, 0.2, 0.2)], its width centred on
    half the width of the page's media box. *)
Theorem every_stamp_has_the_same_format
    (lib : PDFLib) (file : list Byte.byte) (options : SplitOptions)
    (pages : list Size) (font : PDFFont) :
  load file = Resolved pages ->
  embedFont Helvetica = Resolved font ->
  exists out : list PDFPage,
    fst (run (splitA3ToA4 file options)) = Resolved out
    /\ Forall
         (fun page : PDFPage =>
            (List.length (drawn page) <= 1)%nat
            /\ forall (text : string) (o : DrawTextOptions),
                 In (text, o) (drawn page) ->
                 y o = 15 /\ size o = 10 /\ color o = (0.2, 0.2, 0.2)
                 /\ x o = width (mediaBox page) / 2
                          - widthOfTextAtSize font text 10 / 2)
         out.
Proof.
  intros Hload Hfont.
  rewrite (splitA3ToA4_unfolded options file Hload Hfont). cbn [fst].
  eexists; split; [reflexivity|].
  apply save_Forall; [split; [cbn; lia | intros ? ? []]|].
  apply pagesFrom_Forall. intros i sz c _.
  rewrite splitPage_first, splitPage_second.
  pose proof (croppedCopies_frame options i sz) as H.
  destruct (croppedCopies options i sz) as [p1 p2].
  destruct H as (_ & _ & M1 & M2 & D1 & D2 & _). cbn [fst snd].
  assert (Hplain : forall p : PDFPage,
             drawn p = [] ->
             (List.length (drawn p) <= 1)%nat
             /\ forall (text : string) (o : DrawTextOptions),
                  In (text, o) (drawn p) ->
                  y o = 15 /\ size o = 10 /\ color o = (0.2, 0.2, 0.2)
                  /\ x o = width (mediaBox p) / 2
                           - widthOfTextAtSize font text 10 / 2).
  { intros p Hd. rewrite Hd. split; [cbn; lia | intros ? ? []]. }
  assert (Hdrawn : forall (p : PDFPage) (n : Z),
             drawn p = [] ->
             let p' := fst (drawPageNumber font p n) in
             (List.length (drawn p') <= 1)%nat
             /\ forall (text : string) (o : DrawTextOptions),
                  In (text, o) (drawn p') ->
                  y o = 15 /\ size o = 10 /\ color o = (0.2, 0.2, 0.2)
                  /\ x o = width (mediaBox p') / 2
                           - widthOfTextAtSize font text 10 / 2).
  { intros p n Hd. cbn. rewrite Hd. cbn. split; [lia|].
    intros text o [Heq|[]]. injection Heq as <- <-. cbn. now repeat split. }
  destruct (_ && numbersFirst options); destruct (_ && numbersSecond options);
    split; auto.
Qed.

Lemma every_stamp_has_the_same_format_witness :
  exists out : list PDFPage,
    fst (run (@splitA3ToA4 (exampleLib [a3Landscape; a3Portrait]) []
                exampleOptions)) = Resolved out
    /\ Forall
         (fun page : PDFPage =>
            (List.length (drawn page) <= 1)%nat
            /\ forall (text : string) (o : DrawTextOptions),
                 In (text, o) (drawn page) ->
                 y o = 15 /\ size o = 10 /\ color o = (0.2, 0.2, 0.2)
                 /\ x o = width (mediaBox page) / 2
                          - widthOfTextAtSize exampleFont text 10 / 2)
         out.
Proof.
  apply (@every_stamp_has_the_same_format
           (exampleLib [a3Landscape; a3Portrait]) [] exampleOptions
           [a3Landscape; a3Portrait] exampleFont); reflexivity.
Defined.

(** Two different counter values never print as the same text. *)
Lemma template_injective (n m : Z) : template n = template m -> n = m.
Proof.
  unfold template. intros H.
  assert (Hnn : forall z : Z,
             Z.to_int z <> Decimal.Pos Decimal.Nil
             /\ Z.to_int z <> Decimal.Neg Decimal.Nil).
  { intros z. split; intros Hz;
      pose proof (DecimalZ.of_to z) as Hof; rewrite Hz in Hof;
      cbn in Hof; subst z; discriminate. }
  apply DecimalZ.to_int_inj.
  destruct (Hnn n) as [Hn1 Hn2]. destruct (Hnn m) as [Hm1 Hm2].
  pose proof (NilZero.isi (Z.to_int n) Hn1 Hn2) as In.
  pose proof (NilZero.isi (Z.to_int m) Hm1 Hm2) as Im.
  rewrite H in In. rewrite In in Im. now injection Im.
Qed.

Lemma consecutive_NoDup (c : Z) (n : nat) : NoDup (consecutive c n).
Proof.
  unfold consecutive. apply Injective_map_NoDup; [|apply seq_NoDup].
  intros a b Hab. lia.
Qed.

(** X6: as long as the numbering stays within the safe integers, no
    page number is used twice: the texts stamped on the output are
    pairwise different.  (Beyond them the counter stalls, and the same
    number is stamped again: see the counterexample of the counter.) *)
Theorem stamped_numbers_are_distinct
    (lib : PDFLib) (file : list Byte.byte) (options : SplitOptions)
    (pages : list Size) (font : PDFFont) :
  load file = Resolved pages ->
  embedFont Helvetica = Resolved font ->
  safeNumbering (startingPageNumber options)
    (Z.of_nat (List.length pages)) ->
  exists out : list PDFPage,
    fst (run (splitA3ToA4 file options)) = Resolved out
    /\ NoDup (stampedTexts out).
Proof.
  intros Hload Hfont (Hlo & _ & Hhi).
  rewrite (splitA3ToA4_unfolded options file Hload Hfont). cbn [fst].
  eexists; split; [reflexivity|]. rewrite stampedTexts_save.
  destruct (@stampedTexts_pagesFrom options font pages 0
              (startingPageNumber options) Hlo Hhi) as [Ht _].
  rewrite Ht. apply Injective_map_NoDup; [|apply consecutive_NoDup].
  intros a b. apply template_injective.
Qed.

Lemma stamped_numbers_are_distinct_witness :
  exists out : list PDFPage,
    fst (run (@splitA3ToA4
                (exampleLib [a3Landscape; a3Portrait; a3Landscape]) []
                exampleOptions)) = Resolved out
    /\ NoDup (stampedTexts out).
Proof.
  apply (@stamped_numbers_are_distinct
           (exampleLib [a3Landscape; a3Portrait; a3Landscape]) []
           exampleOptions [a3Landscape; a3Portrait; a3Landscape]
           exampleFont);
    first [reflexivity | repeat split; vm_compute; discriminate].
Defined.

(** X7: the service does not check the ratio.  On a page of positive
    width and height both crop windows have positive width and height
    exactly when the active ratio lies strictly between 0 and 1; a
    ratio of 0 or 1 leaves one window empty and a ratio outside [0, 1]
    gives one window a negative extent. *)
Theorem crop_windows_are_proper_iff_ratio_is
    (lib : PDFLib) (file : list Byte.byte) (options : SplitOptions)
    (pages : list Size) (font : PDFFont) (k : nat) (sz : Size) :
  load file = Resolved pages ->
  embedFont Helvetica = Resolved font ->
  nth_error pages k = Some sz ->
  0 < width sz ->
  0 < height sz ->
  exists (out : list PDFPage) (page1 page2 : PDFPage),
    fst (run (splitA3ToA4 file options)) = Resolved out
    /\ nth_error out (2 * k) = Some page1
    /\ nth_error out (2 * k + 1) = Some page2
    /\ ((0 < rwidth (getCropBox page1) /\ 0 < rheight (getCropBox page1)
         /\ 0 < rwidth (getCropBox page2) /\ 0 < rheight (getCropBox page2))
        <-> (0 < currentRatio options k /\ currentRatio options k < 1)).
Proof.
  intros Hload Hfont Hk Hw Hh.
  destruct (@output_pages_of_source_page lib file options pages font k sz
              Hload Hfont Hk) as (out & Hout & Hp1 & Hp2).
  destruct (splitPage_frame options font k sz
              (counterFrom options font 0 (startingPageNumber options) k))
    as (_ & _ & _ & _ & Hcrop).
  exists out. do 2 eexists.
  split; [exact Hout|]. split; [exact Hp1|]. split; [exact Hp2|].
  pose proof (f_equal fst Hcrop) as H1. pose proof (f_equal snd Hcrop) as H2.
  cbn [fst snd] in H1, H2. rewrite H1, H2. clear Hcrop H1 H2 Hp1 Hp2 Hk.
  destruct sz as [w h]. cbn [width height] in Hw, Hh.
  generalize (currentRatio options k). intros r.
  unfold cropRectangles, setCropBoxes.
  destruct (useVerticalSplit options _); cbn; split.
  - intros (H1 & _ & H2 & _). split; nra.
  - intros [H0 H1]. repeat split; try assumption; nra.
  - intros (_ & H1 & _ & H2). split; nra.
  - intros [H0 H1]. repeat split; try assumption; nra.
Qed.

Lemma crop_windows_are_proper_iff_ratio_is_witness :
  exists (out : list PDFPage) (page1 page2 : PDFPage),
    fst (run (@splitA3ToA4 (exampleLib [a3Landscape; a3Portrait]) []
                exampleOptions)) = Resolved out
    /\ nth_error out (2 * 1) = Some page1
    /\ nth_error out (2 * 1 + 1) = Some page2
    /\ ((0 < rwidth (getCropBox page1) /\ 0 < rheight (getCropBox page1)
         /\ 0 < rwidth (getCropBox page2) /\ 0 < rheight (getCropBox page2))
        <-> (0 < currentRatio exampleOptions 1
             /\ currentRatio exampleOptions 1 < 1)).
Proof.
  apply (@crop_windows_are_proper_iff_ratio_is
           (exampleLib [a3Landscape; a3Portrait]) [] exampleOptions
           [a3Landscape; a3Portrait] exampleFont 1 a3Portrait);
    reflexivity.
Defined.

(** Two option objects that give every page of [rest] the same turn
    give the same pages. *)
Lemma pagesFrom_ext (o1 o2 : SplitOptions) (font : PDFFont)
    (rest : list Size) :
  (forall (sz : Size) (i : nat) (c : Z),
     In sz rest -> splitPage o1 font i sz c = splitPage o2 font i sz c) ->
  forall (i : nat) (c : Z),
    pagesFrom o1 font i c rest = pagesFrom o2 font i c rest.
Proof.
  induction rest as [|sz rest' IH]; intros Hturn i c; [reflexivity|].
  cbn [pagesFrom]. rewrite (Hturn sz i c (or_introl eq_refl)).
  destruct (splitPage o2 font i sz c) as [[page1 page2] c'].
  rewrite IH; [reflexivity|]. intros sz' i' c'' Hin. apply Hturn. now right.
Qed.

(** X8: 'auto' follows the shape of the pages.  On a document whose
    pages are all wider than high, a call with orientation 'auto' gives
    the same result as one with 'vertical'; on a document without such
    a page (square pages included), the same as one with
    'horizontal'. *)
Theorem auto_follows_the_shape_of_the_pages
    (lib : PDFLib) (file : list Byte.byte) (o1 o2 : SplitOptions)
    (pages : list Size) :
  load file = Resolved pages ->
  sameExceptOrientation o1 o2 ->
  orientation o1 = Auto ->
  (orientation o2 = Vertical
   /\ Forall (fun sz => height sz < width sz) pages)
  \/ (orientation o2 = Horizontal
      /\ Forall (fun sz => width sz <= height sz) pages) ->
  run (splitA3ToA4 file o1) = run (splitA3ToA4 file o2).
Proof.
  intros Hload (H1 & H2 & H3 & H4 & H5 & H6 & H7) Hauto Hshape.
  rewrite !splitA3ToA4_cases, Hload.
  destruct (embedFont Helvetica) as [font|e]; [|reflexivity].
  rewrite H5. do 3 f_equal. apply pagesFrom_ext. intros sz i c Hin.
  assert (Haxis : useVerticalSplit o1 sz = useVerticalSplit o2 sz).
  { unfold useVerticalSplit. rewrite Hauto.
    destruct Hshape as [[-> Hall]|[-> Hall]];
      rewrite Forall_forall in Hall; specialize (Hall sz Hin); cbn.
    - now apply Qgtb_true.
    - unfold Qgtb. apply negb_false_iff, Qle_bool_iff, Hall. }
  unfold splitPage, currentRatio, shouldAddNumberToThisA3Page, numbersFirst,
    numbersSecond.
  now rewrite Haxis, H1, H2, H3, H4, H6, H7.
Qed.

Lemma auto_follows_the_shape_of_the_pages_witness :
  run (@splitA3ToA4 (exampleLib [a3Landscape; a3Landscape]) []
         exampleOptions)
  = run (@splitA3ToA4 (exampleLib [a3Landscape; a3Landscape]) []
           {| orientation := Vertical; splitRatio := 0.5;
              evenSplitRatio := Some 0.3; useDualRatios := true;
              mergeToSingleFile := true; enablePageNumbering := true;
              startingPageNumber := 5; numberingStartFromPageIndex := 0;
              numberingSide := Both |}).
Proof.
  apply (@auto_follows_the_shape_of_the_pages
           (exampleLib [a3Landscape; a3Landscape]) [] exampleOptions _
           [a3Landscape; a3Landscape]).
  - reflexivity.
  - repeat split.
  - reflexivity.
  - left. split; [reflexivity|]. repeat constructor.
Defined.

(** X9: the output pages of a source page do not depend on the pages
    that follow it: the output of a document with at least one page is
    the beginning of the output of any document that continues it.
    (The output of a page-less document is the blank page of [save],
    which begins no other output.) *)
Theorem output_of_a_prefix_is_a_prefix_of_the_output
    (lib : PDFLib) (file1 file2 : list Byte.byte) (options : SplitOptions)
    (pages1 pages2 : list Size) (font : PDFFont) :
  load file1 = Resolved pages1 ->
  load file2 = Resolved (pages1 ++ pages2) ->
  embedFont Helvetica = Resolved font ->
  pages1 <> [] ->
  exists out1 out2 : list PDFPage,
    fst (run (splitA3ToA4 file1 options)) = Resolved out1
    /\ fst (run (splitA3ToA4 file2 options)) = Resolved out2
    /\ out1 = firstn (2 * List.length pages1) out2.
Proof.
  intros Hload1 Hload2 Hfont Hne.
  rewrite (splitA3ToA4_unfolded options file1 Hload1 Hfont).
  rewrite (splitA3ToA4_unfolded options file2 Hload2 Hfont). cbn [fst].
  do 2 eexists. split; [reflexivity|]. split; [reflexivity|].
  rewrite !save_pagesFrom by (destruct pages1; [congruence | discriminate]).
  rewrite firstn_pagesFrom, firstn_app, firstn_all, Nat.sub_diag.
  cbn [firstn]. now rewrite app_nil_r.
Qed.

Lemma output_of_a_prefix_is_a_prefix_of_the_output_witness :
  exists out1 out2 : list PDFPage,
    fst (run (@splitA3ToA4
                {| load := fun bytes =>
                     match bytes with
                     | [] => Resolved [a3Landscape]
                     | _ => Resolved ([a3Landscape] ++ [a3Portrait])
                     end;
                   embedFont := fun _ => Resolved exampleFont |}
                [] exampleOptions)) = Resolved out1
    /\ fst (run (@splitA3ToA4
                   {| load := fun bytes =>
                        match bytes with
                        | [] => Resolved [a3Landscape]
                        | _ => Resolved ([a3Landscape] ++ [a3Portrait])
                        end;
                      embedFont := fun _ => Resolved exampleFont |}
                   [Byte.x00] exampleOptions)) = Resolved out2
    /\ out1 = firstn (2 * 1) out2.
Proof.
  apply (@output_of_a_prefix_is_a_prefix_of_the_output
           {| load := fun bytes =>
                match bytes with
                | [] => Resolved [a3Landscape]
                | _ => Resolved ([a3Landscape] ++ [a3Portrait])
                end;
              embedFont := fun _ => Resolved exampleFont |}
           [] [Byte.x00] exampleOptions [a3Landscape] [a3Portrait]
           exampleFont); first [reflexivity | discriminate].
Defined.

(** Without a first page the two outputs part: the blank page of the
    page-less document is not a page of the longer one. *)
Lemma output_of_the_page_less_prefix :
  fst (run (@splitA3ToA4 (exampleLib []) [] exampleOptions))
  = Resolved [addPage]
  /\ firstn (2 * 0)
       (save (pagesFrom exampleOptions exampleFont 0 5 [a3Landscape]))
     = [].
Proof. split; reflexivity. Qed.

(** X10: with [useDualRatios] off, [evenSplitRatio] is not used: two
    option objects that differ only in it give the same result. *)
Theorem evenSplitRatio_is_unused_without_dual_ratios
    (lib : PDFLib) (file : list Byte.byte) (o1 o2 : SplitOptions) :
  sameExceptEvenRatio o1 o2 ->
  useDualRatios o1 = false ->
  run (splitA3ToA4 file o1) = run (splitA3ToA4 file o2).
Proof.
  intros (H1 & H2 & H3 & H4 & H5 & H6 & H7) Hoff.
  rewrite !splitA3ToA4_cases.
  destruct (load file) as [pages|e]; [|reflexivity].
  destruct (embedFont Helvetica) as [font|e]; [|reflexivity].
  rewrite H5. do 3 f_equal. apply pagesFrom_ext. intros sz i c _.
  unfold splitPage, currentRatio, useVerticalSplit,
    shouldAddNumberToThisA3Page, numbersFirst, numbersSecond.
  rewrite <- H3, Hoff. cbn [andb]. now rewrite H1, H2, H4, H6, H7.
Qed.

Lemma evenSplitRatio_is_unused_without_dual_ratios_witness :
  run (@splitA3ToA4 (exampleLib [a3Landscape; a3Portrait]) []
         {| orientation := Auto; splitRatio := 0.5;
            evenSplitRatio := Some 0.3; useDualRatios := false;
            mergeToSingleFile := true; enablePageNumbering := true;
            startingPageNumber := 5; numberingStartFromPageIndex := 0;
            numberingSide := Both |})
  = run (@splitA3ToA4 (exampleLib [a3Landscape; a3Portrait]) []
           {| orientation := Auto; splitRatio := 0.5;
              evenSplitRatio := None; useDualRatios := false;
              mergeToSingleFile := true; enablePageNumbering := true;
              startingPageNumber := 5; numberingStartFromPageIndex := 0;
              numberingSide := Both |}).
Proof.
  apply (@evenSplitRatio_is_unused_without_dual_ratios
           (exampleLib [a3Landscape; a3Portrait])); [repeat split|].
  reflexivity.
Defined.

(** With numbering disabled a turn is the two cropped copies, and the
    counter is left alone. *)
Lemma splitPage_disabled (options : SplitOptions) (font : PDFFont)
    (i : nat) (sz : Size) (c : Z) :
  enablePageNumbering options = false ->
  splitPage options font i sz c = (croppedCopies options i sz, c).
Proof.
  intros Hoff. unfold splitPage, croppedCopies, shouldAddNumberToThisA3Page.
  rewrite Hoff. cbn [andb].
  now destruct (setCropBoxes _ _ _ _ _) as [p1 p2].
Qed.

(** X11: with numbering disabled, none of [startingPageNumber],
    [numberingStartFromPageIndex] and [numberingSide] is used: two
    option objects with numbering disabled that agree on the
    orientation and the ratios give the same result. *)
Theorem numbering_fields_are_unused_when_disabled
    (lib : PDFLib) (file : list Byte.byte) (o1 o2 : SplitOptions) :
  sameSplit o1 o2 ->
  enablePageNumbering o1 = false ->
  enablePageNumbering o2 = false ->
  run (splitA3ToA4 file o1) = run (splitA3ToA4 file o2).
Proof.
  intros (H1 & H2 & H3 & H4) Hoff1 Hoff2.
  rewrite !splitA3ToA4_cases.
  destruct (load file) as [pages|e]; [|reflexivity].
  destruct (embedFont Helvetica) as [font|e]; [|reflexivity].
  do 3 f_equal.
  generalize (startingPageNumber o1), (startingPageNumber o2), 0%nat.
  induction pages as [|sz rest IH]; intros c1 c2 i; [reflexivity|].
  cbn [pagesFrom]. rewrite (splitPage_disabled o1 font i sz c1 Hoff1).
  rewrite (splitPage_disabled o2 font i sz c2 Hoff2).
  assert (Hcopies : croppedCopies o1 i sz = croppedCopies o2 i sz).
  { unfold croppedCopies, useVerticalSplit, currentRatio.
    now rewrite H1, H2, H3, H4. }
  rewrite Hcopies. destruct (croppedCopies o2 i sz) as [page1 page2].
  now rewrite (IH c1 c2 (S i)).
Qed.

Lemma numbering_fields_are_unused_when_disabled_witness :
  run (@splitA3ToA4 (exampleLib [a3Landscape; a3Portrait]) []
         {| orientation := Auto; splitRatio := 0.5;
            evenSplitRatio := Some 0.3; useDualRatios := true;
            mergeToSingleFile := true; enablePageNumbering := false;
            startingPageNumber := 5; numberingStartFromPageIndex := 0;
            numberingSide := Both |})
  = run (@splitA3ToA4 (exampleLib [a3Landscape; a3Portrait]) []
           {| orientation := Auto; splitRatio := 0.5;
              evenSplitRatio := Some 0.3; useDualRatios := true;
              mergeToSingleFile := true; enablePageNumbering := false;
              startingPageNumber := 1; numberingStartFromPageIndex := 1;
              numberingSide := First |}).
Proof.
  apply (@numbering_fields_are_unused_when_disabled
           (exampleLib [a3Landscape; a3Portrait])); [repeat split| |];
    reflexivity.
Defined.

(** X12: the values passed to the progress callback depend on the
    number of source pages only: not on the options, and not on the
    pages themselves. *)
Theorem progress_depends_only_on_the_page_count
    (lib : PDFLib) (file1 file2 : list Byte.byte) (o1 o2 : SplitOptions)
    (pages1 pages2 : list Size) (font : PDFFont) :
  load file1 = Resolved pages1 ->
  load file2 = Resolved pages2 ->
  embedFont Helvetica = Resolved font ->
  List.length pages1 = List.length pages2 ->
  snd (run (splitA3ToA4 file1 o1)) = snd (run (splitA3ToA4 file2 o2)).
Proof.
  intros Hload1 Hload2 Hfont Hlen.
  rewrite (splitA3ToA4_unfolded o1 file1 Hload1 Hfont).
  rewrite (splitA3ToA4_unfolded o2 file2 Hload2 Hfont). cbn [snd].
  now rewrite Hlen.
Qed.

Lemma progress_depends_only_on_the_page_count_witness :
  snd (run (@splitA3ToA4 (exampleLib [a3Landscape; a3Portrait]) []
              exampleOptions))
  = snd (run (@splitA3ToA4 (exampleLib [a3Landscape; a3Portrait]) []
                (App.options App.initial))).
Proof.
  apply (@progress_depends_only_on_the_page_count
           (exampleLib [a3Landscape; a3Portrait]) [] [] exampleOptions
           (App.options App.initial) [a3Landscape; a3Portrait]
           [a3Landscape; a3Portrait] exampleFont); reflexivity.
Defined.

(* ================================================================== *)
(** * Further properties of the component *)

(** Induction on the events that lead to a state. *)
Lemma App_after_ind (P : App.State -> Prop) (Q : App.Event -> Prop)
    (events : list App.Event) :
  P App.initial ->
  (forall (st : App.State) (e : App.Event), Q e -> P st -> P (App.step st e)) ->
  Forall Q events ->
  P (App.after events).
Proof.
  intros H0 Hstep. unfold App.after. revert H0. generalize App.initial.
  induction events as [|e events IH]; intros st Hst Hall; [exact Hst|].
  inversion Hall as [|? ? He Hrest]; subst.
  cbn [fold_left]. apply IH; [|exact Hrest]. now apply Hstep.
Qed.

(** X13: whatever the user does, the start index of the numbering is
    not negative and the starting page number is never 0 (an input of
    0, or one that is not a number, is replaced by 1; a negative one is
    kept).  The page count is whatever the loaded document reports, so
    the current page and the page count are at least 1 as long as
    every document the preview has loaded had a page. *)
Theorem reachable_states_are_well_formed (events : list App.Event) :
  let st := App.after events in
  (0 <= App.numberingStartFromPageIndex st)%Z
  /\ App.startingPageNumber st <> 0%Z
  /\ (Forall loadsAPage events ->
      (1 <= App.currentPage st)%Z /\ (1 <= App.totalPages st)%Z).
Proof.
  cbv zeta. split; [|split].
  - apply (@App_after_ind
             (fun st => (0 <= App.numberingStartFromPageIndex st)%Z)
             (fun _ => True)).
    + cbn. lia.
    + intros st e _ Hst.
      destruct st, e; cbn -[Z.max JsNumber.sub] in *; lia.
    + apply Forall_forall. intros; exact I.
  - apply (@App_after_ind
             (fun st => App.startingPageNumber st <> 0%Z)
             (fun _ => True)).
    + cbn. lia.
    + intros st e _ Hst.
      destruct st, e; cbn -[Z.max JsNumber.sub] in *; try assumption.
      destruct value as [[| |]|]; cbn; lia.
    + apply Forall_forall. intros; exact I.
  - intros Hall.
    apply (@App_after_ind
             (fun st => (1 <= App.currentPage st)%Z
                        /\ (1 <= App.totalPages st)%Z)
             loadsAPage); [| |exact Hall].
    + cbn. lia.
    + intros st e He Hst.
      destruct st, e; cbn -[Z.max Z.min JsNumber.sub] in *; lia.
Qed.

Lemma reachable_states_are_well_formed_witness :
  let st := exampleState in
  (0 <= App.numberingStartFromPageIndex st)%Z
  /\ App.startingPageNumber st <> 0%Z
  /\ (1 <= App.currentPage st)%Z /\ (1 <= App.totalPages st)%Z.
Proof.
  destruct (@reachable_states_are_well_formed
              [App.FileChange; App.PreviewLoaded 2 a3Landscape;
               App.ToggleNumbering; App.ToggleDualRatios;
               App.SetEvenSplitRatio 0.3;
               App.InputStartingPageNumber (Some 5%Z); App.GoToNextPage;
               App.PreviewLoaded 2 a3Portrait]) as (Hidx & Hstart & Hpages).
  split; [exact Hidx|]. split; [exact Hstart|].
  apply Hpages. repeat constructor; cbn; lia.
Defined.

(** A document without pages, were the preview to load one, would
    leave the page count at 0 and let "next" take the current page
    there. *)
Lemma page_count_follows_the_document :
  let st := App.after [App.PreviewLoaded 0 a3Landscape; App.GoToNextPage] in
  App.totalPages st = 0%Z /\ App.currentPage st = 0%Z.
Proof. split; reflexivity. Qed.

(** X14: as long as the two ratio sliders deliver values of their
    range [0.1, 0.9], both ratios of the state stay in that range, so
    the active ratio the service takes for any page of a run started
    from that state lies strictly between 0 and 1. *)
Theorem slider_ratios_stay_in_range (events : list App.Event) :
  Forall fromSliders events ->
  let st := App.after events in
  sliderRange (App.splitRatio st)
  /\ sliderRange (App.evenSplitRatio st)
  /\ forall i : nat,
       0 < currentRatio (App.options st) i
       /\ currentRatio (App.options st) i < 1.
Proof.
  intros Hall. cbv zeta.
  assert (H : sliderRange (App.splitRatio (App.after events))
              /\ sliderRange (App.evenSplitRatio (App.after events))).
  { apply (@App_after_ind
             (fun st => sliderRange (App.splitRatio st)
                        /\ sliderRange (App.evenSplitRatio st))
             fromSliders); [| |exact Hall].
    - split; split; vm_compute; discriminate.
    - intros st e He [Hs He']. destruct st, e;
        cbn -[Z.max Z.min JsNumber.sub] in *;
        try (split; assumption);
        split; split; vm_compute; discriminate. }
  destruct H as [Hs He]. split; [exact Hs|]. split; [exact He|].
  intros i. unfold currentRatio, App.options. cbn -[isEvenPage].
  unfold sliderRange in Hs, He.
  destruct (App.useDualRatios _ && isEvenPage i); lra.
Qed.

Lemma slider_ratios_stay_in_range_witness :
  let st :=
    App.after [App.FileChange; App.SetSplitRatio 0.45;
               App.ToggleDualRatios; App.SetEvenSplitRatio 0.62] in
  sliderRange (App.splitRatio st)
  /\ sliderRange (App.evenSplitRatio st)
  /\ forall i : nat,
       0 < currentRatio (App.options st) i
       /\ currentRatio (App.options st) i < 1.
Proof.
  apply (@slider_ratios_stay_in_range
           [App.FileChange; App.SetSplitRatio 0.45;
            App.ToggleDualRatios; App.SetEvenSplitRatio 0.62]).
  repeat constructor; vm_compute; discriminate.
Defined.

(** X15: page navigation.  On a state whose current page is a page of
    the document, "next" moves one page forward except on the last
    page, "previous" one page back except on the first, neither leaves
    the document nor touches anything else, and each undoes the
    other. *)
Theorem page_navigation (st : App.State) :
  (1 <= App.currentPage st <= App.totalPages st)%Z ->
  let next := App.step st App.GoToNextPage in
  let prev := App.step st App.GoToPrevPage in
  App.currentPage next
  = (if (App.currentPage st <? App.totalPages st)%Z
     then App.currentPage st + 1 else App.currentPage st)%Z
  /\ App.currentPage prev
     = (if (1 <? App.currentPage st)%Z
        then App.currentPage st - 1 else App.currentPage st)%Z
  /\ ((App.currentPage st < App.totalPages st)%Z ->
      App.step next App.GoToPrevPage = st)
  /\ ((1 < App.currentPage st)%Z ->
      App.step prev App.GoToNextPage = st).
Proof.
  intros Hcp. destruct st. cbn in *. repeat apply conj.
  - destruct (Z.ltb_spec currentPage totalPages); lia.
  - destruct (Z.ltb_spec 1 currentPage); lia.
  - intros Hlt. f_equal. lia.
  - intros Hgt. f_equal. lia.
Qed.

Lemma page_navigation_witness :
  let st := exampleState in
  let next := App.step st App.GoToNextPage in
  let prev := App.step st App.GoToPrevPage in
  App.currentPage next
  = (if (App.currentPage st <? App.totalPages st)%Z
     then App.currentPage st + 1 else App.currentPage st)%Z
  /\ App.currentPage prev
     = (if (1 <? App.currentPage st)%Z
        then App.currentPage st - 1 else App.currentPage st)%Z
  /\ ((App.currentPage st < App.totalPages st)%Z ->
      App.step next App.GoToPrevPage = st)
  /\ ((1 < App.currentPage st)%Z ->
      App.step prev App.GoToNextPage = st).
Proof.
  apply (@page_navigation exampleState). vm_compute.
  split; discriminate.
Defined.

(** X16: the start-page input, for an input that is a safe integer
    (at most 2^53 - 1 in magnitude).  After the user types a number
    [n >= 1] the input shows [n] and the stored index is [n - 1]; after
    typing 0, a negative number or something that is not a number, the
    input shows 1 and the stored index is 0. *)
Theorem start_page_input_round_trip (st : App.State) (value : option Z) :
  let st' := App.step st (App.InputNumberingStartPage value) in
  let typed := match value with Some n => n | None => 1%Z end in
  (Z.abs typed <= JsNumber.MAX_SAFE_INTEGER)%Z ->
  AppView.startPageInputValue st' = Z.max 1 typed
  /\ App.numberingStartFromPageIndex st' = (Z.max 1 typed - 1)%Z.
Proof.
  cbv zeta. intros Hsafe. destruct st. unfold AppView.startPageInputValue.
  cbn -[Z.max JsNumber.add JsNumber.sub App.parseIntOr1].
  unfold JsNumber.MAX_SAFE_INTEGER in Hsafe.
  assert (Hparsed : (Z.abs (App.parseIntOr1 value) <= 2 ^ 53 - 1)%Z)
    by (destruct value as [[| |]|]; cbn [App.parseIntOr1]; lia).
  assert (Htyped : Z.max 1 (App.parseIntOr1 value)
                   = Z.max 1 match value with Some n => n | None => 1%Z end)
    by (destruct value as [[| |]|]; cbn [App.parseIntOr1]; lia).
  rewrite <- Htyped.
  unfold JsNumber.sub, JsNumber.add.
  rewrite (toDouble_safe (App.parseIntOr1 value - 1)) by lia.
  rewrite toDouble_safe by lia. lia.
Qed.

Lemma start_page_input_round_trip_witness :
  let st' := App.step exampleState (App.InputNumberingStartPage (Some 3%Z)) in
  AppView.startPageInputValue st' = 3%Z
  /\ App.numberingStartFromPageIndex st' = 2%Z.
Proof.
  apply (@start_page_input_round_trip exampleState (Some 3%Z)).
  vm_compute. discriminate.
Defined.

(** Beyond the safe integers the input does not show what was typed:
    after 9007199254740994 the stored index and the number shown are
    both 9007199254740992. *)
Lemma start_page_input_beyond_the_safe_integers :
  let st' :=
    App.step exampleState
      (App.InputNumberingStartPage (Some 9007199254740994%Z)) in
  AppView.startPageInputValue st' = 9007199254740992%Z
  /\ App.numberingStartFromPageIndex st' = 9007199254740992%Z.
Proof. split; reflexivity. Qed.

(** "Next" on a page that is not the last one changes the current page
    only. *)
Lemma step_GoToNextPage (st : App.State) :
  (App.currentPage st < App.totalPages st)%Z ->
  let next := App.step st App.GoToNextPage in
  App.currentPage next = (App.currentPage st + 1)%Z
  /\ App.enablePageNumbering next = App.enablePageNumbering st
  /\ App.startingPageNumber next = App.startingPageNumber st
  /\ App.numberingStartFromPageIndex next = App.numberingStartFromPageIndex st
  /\ App.numberingSide next = App.numberingSide st.
Proof.
  intros Hlt. destruct st. cbn -[Z.min] in *. repeat split. lia.
Qed.

(** X17: the labels of the preview continue from page to page, as long
    as the numbering stays within the safe integers.  On a numbered
    page (numbering enabled, page index at or after the start index,
    itself a page index) the labels are consecutive numbers from some
    [c] on, placed on the sides [numberingSide] selects; on the first
    numbered page [c] is [startingPageNumber]; and the labels of the
    next page start right after the last label of this one. *)
Theorem preview_labels_continue (st : App.State) :
  App.enablePageNumbering st = true ->
  (0 <= App.numberingStartFromPageIndex st)%Z ->
  (App.numberingStartFromPageIndex st <= App.currentPage st - 1)%Z ->
  (App.currentPage st < App.totalPages st)%Z ->
  safeNumbering (App.startingPageNumber st) (App.totalPages st) ->
  exists c : Z,
    App.getSimulatedPageNumbers st = labelsFrom (App.numberingSide st) c
    /\ App.getSimulatedPageNumbers (App.step st App.GoToNextPage)
       = labelsFrom (App.numberingSide st)
           (c + perPageIncrement (App.numberingSide st))
    /\ ((App.currentPage st - 1)%Z = App.numberingStartFromPageIndex st ->
        c = App.startingPageNumber st).
Proof.
  intros Hen Hidx0 Hidx Hlt Hsafe.
  destruct (step_GoToNextPage st Hlt) as (Hcp & Hen' & Hsp & Hix & Hsd).
  rewrite (@labels_on_safe_integers st (App.totalPages st))
    by (assumption || lia).
  rewrite (@labels_on_safe_integers (App.step st App.GoToNextPage)
             (App.totalPages st))
    by (rewrite ?Hcp, ?Hsp, ?Hix; assumption || lia).
  rewrite Hcp, Hen', Hsp, Hix, Hsd, Hen. cbn [negb orb].
  destruct (Z.ltb_spec (App.currentPage st - 1)
              (App.numberingStartFromPageIndex st)); [lia|].
  destruct (Z.ltb_spec (App.currentPage st + 1 - 1)
              (App.numberingStartFromPageIndex st)); [lia|].
  eexists. split; [reflexivity|]. split.
  - f_equal. destruct (App.numberingSide st); cbn [perPageIncrement]; lia.
  - intros Heq. rewrite Heq. lia.
Qed.

Lemma preview_labels_continue_witness :
  let st := App.step exampleState App.GoToPrevPage in
  exists c : Z,
    App.getSimulatedPageNumbers st = labelsFrom (App.numberingSide st) c
    /\ App.getSimulatedPageNumbers (App.step st App.GoToNextPage)
       = labelsFrom (App.numberingSide st)
           (c + perPageIncrement (App.numberingSide st))
    /\ ((App.currentPage st - 1)%Z = App.numberingStartFromPageIndex st ->
        c = App.startingPageNumber st).
Proof.
  apply (@preview_labels_continue (App.step exampleState App.GoToPrevPage));
    first [reflexivity
          | vm_compute; discriminate
          | repeat split; vm_compute; discriminate].
Defined.

(** Beyond the safe integers the labels do not continue: with the
    numbering starting at 2^53 on the first halves only, page 1 and
    page 2 show the same number. *)
Lemma preview_labels_repeat_at_two_to_the_53 :
  let st :=
    App.after
      [App.FileChange; App.PreviewLoaded 2 a3Landscape; App.ToggleNumbering;
       App.SetNumberingSide First;
       App.InputStartingPageNumber (Some 9007199254740992%Z)] in
  App.getSimulatedPageNumbers st = (Some 9007199254740992%Z, None)
  /\ App.getSimulatedPageNumbers (App.step st App.GoToNextPage)
     = (Some 9007199254740992%Z, None).
Proof. split; reflexivity. Qed.

(** X18: the page the preview loads is always a page of the document:
    with at least one page, [pageToLoad] lies between 1 and the page
    count, it is the current page when that is a page of the document,
    and right after a new file has been chosen it is page 1. *)
Theorem preview_loads_a_page_of_the_document
    (st : App.State) (numPages : Z) :
  (1 <= numPages)%Z ->
  let loaded := AppView.pageToLoad (App.currentPage st) numPages in
  (1 <= loaded <= numPages)%Z
  /\ ((1 <= App.currentPage st <= numPages)%Z -> loaded = App.currentPage st)
  /\ AppView.pageToLoad (App.currentPage (App.step st App.FileChange))
       numPages = 1%Z.
Proof.
  intros Hn. destruct st. unfold AppView.pageToLoad. cbn -[Z.min Z.max].
  repeat split; try lia.
Qed.

Lemma preview_loads_a_page_of_the_document_witness :
  let loaded := AppView.pageToLoad (App.currentPage exampleState) 1 in
  (1 <= loaded <= 1)%Z
  /\ ((1 <= App.currentPage exampleState <= 1)%Z ->
      loaded = App.currentPage exampleState)
  /\ AppView.pageToLoad
       (App.currentPage (App.step exampleState App.FileChange)) 1 = 1%Z.
Proof.
  apply (@preview_loads_a_page_of_the_document exampleState 1). lia.
Defined.

(** X19: the preview fits its container.  For a page of positive
    width and height, the viewport scaled by [fitScale] is at most as
    wide and as high as the wrapper less its 80 pixels of padding, is
    never enlarged beyond 1.2, keeps the proportions of the page, and
    is enlarged by exactly 1.2 when the container has room for that. *)
Theorem preview_fits_its_container
    (clientWidth clientHeight : Q) (viewport : Size) :
  0 < width viewport ->
  0 < height viewport ->
  let scale := AppView.fitScale clientWidth clientHeight viewport in
  let scaled := AppView.getViewport viewport scale in
  width scaled <= clientWidth - 80
  /\ height scaled <= clientHeight - 80
  /\ scale <= 1.2
  /\ width scaled * height viewport == height scaled * width viewport
  /\ (1.2 * width viewport <= clientWidth - 80 ->
      1.2 * height viewport <= clientHeight - 80 ->
      scale == 1.2).
Proof.
  intros Hw Hh. destruct viewport as [w h]. cbn [width height] in *.
  unfold AppView.fitScale, AppView.getViewport. cbn [width height].
  set (sx := (clientWidth - 80) / w). set (sy := (clientHeight - 80) / h).
  assert (Hsx : sx * w == clientWidth - 80)
    by (subst sx; field; intros H0; rewrite H0 in Hw; discriminate).
  assert (Hsy : sy * h == clientHeight - 80)
    by (subst sy; field; intros H0; rewrite H0 in Hh; discriminate).
  pose proof (Q.le_min_l (Qmin sx sy) 1.2) as Hm.
  pose proof (Q.le_min_r (Qmin sx sy) 1.2) as Hcap.
  pose proof (Q.le_min_l sx sy) as Hx. pose proof (Q.le_min_r sx sy) as Hy.
  set (s := Qmin (Qmin sx sy) 1.2) in *.
  assert (Hsx' : s <= sx) by exact (Qle_trans _ _ _ Hm Hx).
  assert (Hsy' : s <= sy) by exact (Qle_trans _ _ _ Hm Hy).
  repeat apply conj.
  - rewrite (Qmult_comm w s), <- Hsx.
    apply Qmult_le_compat_r; [exact Hsx' | apply Qlt_le_weak, Hw].
  - rewrite (Qmult_comm h s), <- Hsy.
    apply Qmult_le_compat_r; [exact Hsy' | apply Qlt_le_weak, Hh].
  - exact Hcap.
  - ring.
  - intros Hroomx Hroomy. subst s. apply Q.min_r.
    apply Q.min_glb.
    + apply (Qmult_le_r _ _ w Hw). rewrite Hsx. exact Hroomx.
    + apply (Qmult_le_r _ _ h Hh). rewrite Hsy. exact Hroomy.
Qed.

Lemma preview_fits_its_container_witness :
  let scale := AppView.fitScale 800 600 a3Landscape in
  let scaled := AppView.getViewport a3Landscape scale in
  width scaled <= 800 - 80
  /\ height scaled <= 600 - 80
  /\ scale <= 1.2
  /\ width scaled * height a3Landscape == height scaled * width a3Landscape
  /\ (1.2 * width a3Landscape <= 800 - 80 ->
      1.2 * height a3Landscape <= 600 - 80 ->
      scale == 1.2).
Proof.
  apply (@preview_fits_its_container 800 600 a3Landscape); reflexivity.
Defined.

(** X20: the overlay of the preview shows the cut where the service
    makes it.  For a vertical split the dashed line, at
    [currentActiveRatio * 100] percent of the width from the left, is
    the common edge of the two crop windows and the offsets of the two
    labels are the middles of the windows; for a horizontal split the
    same holds with the percentages taken of the height from the top. *)
Theorem preview_overlay_matches_the_crop_windows
    (st : App.State) (sz : Size) :
  let windows :=
    cropRectangles (App.isVerticalSplit st) (App.currentActiveRatio st) sz in
  let w := width sz in
  let h := height sz in
  if App.isVerticalSplit st
  then AppView.splitLinePercent st / 100 * w
       == rx (fst windows) + rwidth (fst windows)
       /\ AppView.splitLinePercent st / 100 * w == rx (snd windows)
       /\ App.label1Percent st / 100 * w == windowCenter (fst windows)
       /\ App.label2Percent st / 100 * w == windowCenter (snd windows)
  else h - AppView.splitLinePercent st / 100 * h == ry (fst windows)
       /\ h - AppView.splitLinePercent st / 100 * h
          == ry (snd windows) + rheight (snd windows)
       /\ h - App.label1Percent st / 100 * h
          == ry (fst windows) + rheight (fst windows) / 2
       /\ h - App.label2Percent st / 100 * h
          == ry (snd windows) + rheight (snd windows) / 2.
Proof.
  cbv zeta.
  unfold AppView.splitLinePercent, App.label1Percent, App.label2Percent,
    windowCenter, cropRectangles, setCropBoxes.
  destruct (App.isVerticalSplit st); cbn; repeat split; field.
Qed.

(** The callback keeps the step of the status it updates. *)
Lemma statusesAfter_processing (calls : list Q) :
  forall prev : Status.ProcessingStatus,
    Status.step prev = Status.Processing ->
    AppView.statusesAfter prev calls
    = map (AppView.reportProgress AppView.statusProcessing) calls.
Proof.
  induction calls as [|v calls IH]; intros prev Hprev; [reflexivity|].
  cbn [AppView.statusesAfter map].
  assert (Hsame : AppView.reportProgress prev v
                  = AppView.reportProgress AppView.statusProcessing v).
  { unfold AppView.reportProgress. now rewrite Hprev. }
  rewrite Hsame. f_equal. now apply IH.
Qed.

(** The double the message rounds is the one the service computes:
    [((i + 1) / totalPages) * 100] with [i + 1 = k]. *)
Lemma progressDouble_percent (k n : nat) :
  (0 < k <= n)%nat ->
  AppView.progressDouble (percent k n)
  == JsNumber.fl
       (JsNumber.fl (inject_Z (Z.of_nat k) / inject_Z (Z.of_nat n)) * 100).
Proof.
  intros Hk. destruct (percent_range Hk) as [H0 H100].
  pose proof (Qdiv_100 (percent k n)) as Hdiv.
  unfold AppView.progressDouble.
  assert (Hinner : JsNumber.fl (percent k n / 100)
                   == JsNumber.fl (inject_Z (Z.of_nat k)
                                   / inject_Z (Z.of_nat n))).
  { apply (@fl_comp _ _ 1); [lia | lra | change (inject_Z 1) with 1; lra |].
    unfold percent. field.
    intros Hz. change 0 with (inject_Z 0) in Hz.
    rewrite inject_Z_injective in Hz. lia. }
  assert (Hq0 : 0 <= JsNumber.fl (percent k n / 100))
    by (apply fl_nonneg; lra).
  assert (Hq1 : JsNumber.fl (percent k n / 100) <= inject_Z 1)
    by (apply fl_le_integer; [lia | lra | change (inject_Z 1) with 1; lra]).
  change (inject_Z 1) with 1 in Hq1.
  apply (@fl_comp _ _ 100); [lia | lra | change (inject_Z 100) with 100; lra |].
  now rewrite Hinner.
Qed.

(** The double percentage of a page lies between 0 and 100. *)
Lemma progressDouble_range (k n : nat) :
  (0 < k <= n)%nat ->
  0 <= AppView.progressDouble (percent k n) <= 100.
Proof.
  intros Hk. destruct (percent_range Hk) as [H0 H100].
  pose proof (Qdiv_100 (percent k n)) as Hdiv.
  unfold AppView.progressDouble.
  assert (Hq0 : 0 <= JsNumber.fl (percent k n / 100))
    by (apply fl_nonneg; lra).
  assert (Hq1 : JsNumber.fl (percent k n / 100) <= inject_Z 1)
    by (apply fl_le_integer; [lia | lra | change (inject_Z 1) with 1; lra]).
  change (inject_Z 1) with 1 in Hq1. split.
  - apply fl_nonneg. lra.
  - apply (@fl_le_integer _ 100); [lia | lra | change (inject_Z 100) with 100; lra].
Qed.

(** The double percentage of the last page is 100. *)
Lemma progressDouble_full (n : nat) :
  (0 < n)%nat -> AppView.progressDouble (percent n n) == 100.
Proof.
  intros Hn. unfold AppView.progressDouble.
  assert (H1 : JsNumber.fl (percent n n / 100) == inject_Z 1).
  { apply fl_integer; [lia|]. rewrite percent_full by exact Hn. reflexivity. }
  apply (@fl_integer _ 100); [lia|]. rewrite H1. reflexivity.
Qed.

(** The percentage of the message is the rounded double, not the
    rounded quotient: page 23 of 40 is reported as 57 percent, where
    the exact percentage, 57.5, rounds to 58. *)
Lemma page_23_of_40_is_reported_as_57 :
  AppView.Math_round (AppView.progressDouble (percent 23 40)) = 57%Z
  /\ AppView.Math_round (percent 23 40) = 58%Z
  /\ Status.message
       (AppView.reportProgress AppView.statusProcessing (percent 23 40))
     = "处理进度: 57%"%string.
Proof. repeat split; vm_compute; reflexivity. Qed.

(** X21: [handleProcess] on a document that the service can process.
    The statuses it sets are: 'processing' at 0; then, for the [k]-th of
    the [n] source pages, the step still 'processing', the progress
    [(k / n) * 100], and the message "处理进度: p%", where [p] is the
    double [(k / n) * 100] (the quotient rounded to a double, then the
    product) rounded to an integer by [Math.round]; finally 'completed'
    at 100.  Every [p] lies between 0 and 100, the last one is 100, and
    the document offered for download is the one the service
    returned. *)
Theorem handleProcess_on_success
    (lib : PDFLib) (file : list Byte.byte) (st : App.State)
    (pages : list Size) (font : PDFFont) :
  load file = Resolved pages ->
  embedFont Helvetica = Resolved font ->
  let n := List.length pages in
  let p := fun k : nat =>
    AppView.Math_round
      (JsNumber.fl
         (JsNumber.fl (inject_Z (Z.of_nat k) / inject_Z (Z.of_nat n)) * 100))
  in
  exists out : list PDFPage,
    fst (run (splitA3ToA4 file (App.options st))) = Resolved out
    /\ AppView.handleProcess (Some file) st
       = ({| Status.step := Status.Processing; Status.progress := 0;
             Status.message := "正在进行高级分割..." |}
            :: map (fun k =>
                      {| Status.step := Status.Processing;
                         Status.progress := percent k n;
                         Status.message :=
                           ("处理进度: " ++ template (p k) ++ "%")%string |})
                 (seq 1 n)
            ++ [{| Status.step := Status.Completed; Status.progress := 100;
                   Status.message := "转换成功完成！" |}],
          Some out)
    /\ (forall k : nat, (1 <= k <= n)%nat -> (0 <= p k <= 100)%Z)
    /\ ((1 <= n)%nat -> p n = 100%Z).
Proof.
  intros Hload Hfont. cbv zeta. unfold AppView.handleProcess.
  rewrite (splitA3ToA4_unfolded (App.options st) file Hload Hfont).
  cbn [fst]. eexists. split; [reflexivity|].
  assert (Hp : forall k : nat,
             (1 <= k <= List.length pages)%nat ->
             AppView.Math_round
               (JsNumber.fl
                  (JsNumber.fl (inject_Z (Z.of_nat k)
                                / inject_Z (Z.of_nat (List.length pages)))
                   * 100))
             = AppView.Math_round
                 (AppView.progressDouble (percent k (List.length pages)))).
  { intros k Hk. unfold AppView.Math_round. apply Qfloor_comp.
    rewrite progressDouble_percent by lia. reflexivity. }
  split; [|split].
  - rewrite statusesAfter_processing by reflexivity.
    rewrite map_map, <- seq_shift, map_map.
    f_equal. f_equal. f_equal. apply map_ext_in. intros x Hx.
    apply in_seq in Hx.
    rewrite <- (Nat.add_1_r x), Hp by lia.
    unfold AppView.reportProgress. cbn [Status.step AppView.statusProcessing].
    now rewrite progressValue_percent.
  - intros k Hk. rewrite Hp by exact Hk.
    destruct (@progressDouble_range k (List.length pages) ltac:(lia))
      as [H0 H100].
    unfold AppView.Math_round. split.
    + change 0%Z with (Qfloor (1 # 2)). apply Qfloor_resp_le. lra.
    + change 100%Z with (Qfloor (100 + (1 # 2))). apply Qfloor_resp_le. lra.
  - intros Hn. rewrite Hp by lia. unfold AppView.Math_round.
    rewrite (Qfloor_comp _ (100 + (1 # 2))); [reflexivity|].
    rewrite progressDouble_full by lia. reflexivity.
Qed.

Lemma handleProcess_on_success_witness :
  let n := 2%nat in
  let p := fun k : nat =>
    AppView.Math_round
      (JsNumber.fl
         (JsNumber.fl (inject_Z (Z.of_nat k) / inject_Z (Z.of_nat n)) * 100))
  in
  exists out : list PDFPage,
    fst (run (@splitA3ToA4 (exampleLib [a3Landscape; a3Portrait]) []
                (App.options exampleState))) = Resolved out
    /\ @AppView.handleProcess (exampleLib [a3Landscape; a3Portrait])
         (Some []) exampleState
       = ({| Status.step := Status.Processing; Status.progress := 0;
             Status.message := "正在进行高级分割..." |}
            :: map (fun k =>
                      {| Status.step := Status.Processing;
                         Status.progress := percent k n;
                         Status.message :=
                           ("处理进度: " ++ template (p k) ++ "%")%string |})
                 (seq 1 n)
            ++ [{| Status.step := Status.Completed; Status.progress := 100;
                   Status.message := "转换成功完成！" |}],
          Some out)
    /\ (forall k : nat, (1 <= k <= n)%nat -> (0 <= p k <= 100)%Z)
    /\ ((1 <= n)%nat -> p n = 100%Z).
Proof.
  apply (@handleProcess_on_success (exampleLib [a3Landscape; a3Portrait])
           [] exampleState [a3Landscape; a3Portrait] exampleFont);
    reflexivity.
Defined.

(** X22: [handleProcess] when the service fails, be it in the parser
    or in the font embedder: the status goes from 'processing' at 0
    straight to 'error' at 0, without any progress report in between,
    and no document is offered for download.  Without a selected file
    nothing happens at all. *)
Theorem handleProcess_on_failure
    (lib : PDFLib) (file : list Byte.byte) (st : App.State) (e : Error) :
  load file = Rejected e
  \/ (exists pages : list Size,
        load file = Resolved pages /\ embedFont Helvetica = Rejected e) ->
  AppView.handleProcess (Some file) st
  = ([AppView.statusProcessing; AppView.statusError], None)
  /\ AppView.handleProcess None st = ([], None).
Proof.
  intros Hfail. split; [|reflexivity]. unfold AppView.handleProcess.
  rewrite splitA3ToA4_cases.
  destruct Hfail as [Hload|(pages & Hload & Hfont)].
  - now rewrite Hload.
  - now rewrite Hload, Hfont.
Qed.

Lemma handleProcess_on_failure_witness :
  @AppView.handleProcess rejectingLib (Some []) exampleState
  = ([AppView.statusProcessing; AppView.statusError], None)
  /\ @AppView.handleProcess rejectingLib None exampleState = ([], None).
Proof.
  apply (@handleProcess_on_failure rejectingLib [] exampleState ParseError).
  left. reflexivity.
Defined.
